(** * Inventory API: the item routes of [main.py]

    A shallow embedding of the FastAPI handlers [list_items], [create_item],
    [update_item], [adjust_stock], [delete_item] and [inventory_stats], and of
    the part of the document store they talk to.

    Scope of the model.
    - The store connection is live ([db] is not [None]) and requests are
      served one at a time.
    - A stored document is its [_id] together with its other fields; field
      values are Python values as they come back from the driver.  Of the
      driver's wire encoding one limit is modelled, the one a request can
      reach: an [int] written to the store must fit in 8 bytes.
    - Text is a byte string, the UTF-8 form of a Python [str] (a [str] with
      a lone surrogate has none and is left out).
    - Where the behaviour of the real system depends on something the model
      does not cover (regular-expression operators other than literals and
      the dot, a dot against text that is not ASCII, the two letters outside
      ASCII whose case folds into ASCII, [int] of a float or of text) the
      model answers [Unmodelled], never a made-up value. *)

From Stdlib Require Import ZArith Ascii String List Bool Lia PrimFloat.
From stdpp Require Import base option list strings gmap fin_maps.

Local Open Scope string_scope.
Local Open Scope Z_scope.

(** ** Python values and exceptions *)

(** What a field of a document may hold. *)
Inductive value :=
| VNone
| VBool (b : bool)
| VInt (z : Z)
| VFloat (f : float)
| VStr (s : string).

(** The exceptions the handlers raise or let through. *)
Inductive exn :=
| HTTPException (status_code : nat) (detail : string)
| InvalidId
| TypeError
| OverflowError
| DuplicateKeyError.

(** The result of running a piece of Python: a value, an exception, or
    [Unmodelled] when the run leaves the fragment described above. *)
Inductive result (A : Type) :=
| Return (a : A)
| Raise (e : exn)
| Unmodelled.
Arguments Return {A} a.
Arguments Raise {A} e.
Arguments Unmodelled {A}.

(** Python truth value, as [if x] and [x or y] take it. *)
Definition truthy (v : value) : bool :=
  match v with
  | VNone => false
  | VBool b => b
  | VInt z => negb (z =? 0)%Z
  | VFloat f => negb (PrimFloat.eqb f 0%float)
  | VStr s => negb (String.eqb s "")
  end.

(** [x or y]. *)
Definition py_or (x y : value) : value := if truthy x then x else y.

(** [int(x)].  [int(None)] raises [TypeError]; a [bool] is an [int]. *)
Definition py_int (v : value) : result Z :=
  match v with
  | VInt z => Return z
  | VBool b => Return (if b then 1 else 0)
  | VNone => Raise TypeError
  | VFloat _ | VStr _ => Unmodelled
  end.

(** [d.get(k, default)]. *)
Definition dict_get (d : gmap string value) (k : string) (default : value) : value :=
  match d !! k with Some v => v | None => default end.

(** ** Characters *)

Definition code (c : ascii) : N := N_of_ascii c.

Definition in_range (lo hi : N) (c : ascii) : bool :=
  ((lo <=? code c) && (code c <=? hi))%N.

Definition is_digit (c : ascii) : bool := in_range 48 57 c.
Definition is_upper (c : ascii) : bool := in_range 65 90 c.
Definition is_lower (c : ascii) : bool := in_range 97 122 c.
Definition is_alnum (c : ascii) : bool := is_digit c || is_upper c || is_lower c.
Definition is_ascii (c : ascii) : bool := (code c <? 128)%N.

(** [0-9a-fA-F], the digits [bytes.fromhex] reads. *)
Definition is_hex_digit (c : ascii) : bool :=
  is_digit c || in_range 65 70 c || in_range 97 102 c.

(** Python's [Py_ISSPACE]: space, tab, line feed, vertical tab, form feed,
    carriage return. *)
Definition is_space (c : ascii) : bool :=
  (code c =? 32)%N || in_range 9 13 c.

(** ASCII lower case of a character. *)
Definition lower (c : ascii) : ascii :=
  if is_upper c then ascii_of_N (code c + 32) else c.

Definition chars (s : string) : list ascii := list_ascii_of_string s.

(** ** bson.ObjectId *)

(** The bytes of an identifier, kept in the form [str(oid)] prints them:
    lower-case hexadecimal digits, 24 of them for the twelve bytes of an
    identifier the driver generates. *)
Record ObjectId := mkObjectId { hex : string }.

#[global] Instance ObjectId_eq_dec : EqDecision ObjectId.
Proof. solve_decision. Defined.

(** [bytes.fromhex(s)]: the bytes are read as pairs of hexadecimal digits;
    white space is skipped before a pair and at the end, not inside a pair.
    Answers the digits read, in lower case as [bytes.hex] prints them;
    [None] stands for [ValueError]. *)
Fixpoint fromhex (s : list ascii) : option (list ascii) :=
  match s with
  | [] => Some []
  | c :: s' =>
      if is_space c then fromhex s'
      else
        match s' with
        | b :: s'' =>
            if is_hex_digit c && is_hex_digit b
            then (fun r => lower c :: lower b :: r) <$> fromhex s''
            else None
        | [] => None
        end
  end.

(** [ObjectId(oid)] for a [str]: the string must have length 24 and
    [bytes.fromhex] must accept it, otherwise [InvalidId].  Since [fromhex]
    skips white space, a string of length 24 with white space in it can give
    an identifier of fewer than twelve bytes. *)
Definition ObjectId_of_str (oid : string) : result ObjectId :=
  if (String.length oid =? 24)%nat then
    match fromhex (chars oid) with
    | Some digits => Return (mkObjectId (string_of_list_ascii digits))
    | None => Raise InvalidId
    end
  else Raise InvalidId.

(** [str(oid)]. *)
Definition str_of_ObjectId (oid : ObjectId) : string := hex oid.

(** The identifiers the driver generates. *)
Definition valid_ObjectId (oid : ObjectId) : bool :=
  (String.length (hex oid) =? 24)%nat
  && forallb (fun c => is_digit c || in_range 97 102 c) (chars (hex oid)).

(** ** Documents and the [item] collection *)

Record document := Doc { _id : ObjectId; fields : gmap string value }.

(** The calls made on [db.item], in order. *)
Inductive db_call := call_find | call_find_one | call_insert_one | call_update_one | call_delete_one.

(** The store as a handler sees it: the [item] collection in its natural
    (insertion) order, and the log of calls made on it. *)
Record world := World { item : list document; calls : list db_call }.

(** Handlers and store operations: they read and change the world and end in
    a [result]; what was changed before an exception stays changed. *)
Definition M (A : Type) : Type := world -> result A * world.

Definition ret {A} (a : A) : M A := fun w => (Return a, w).
Definition raise {A} (e : exn) : M A := fun w => (Raise e, w).
Definition lift {A} (r : result A) : M A := fun w => (r, w).

Definition bind {A B} (m : M A) (k : A -> M B) : M B :=
  fun w =>
    match m w with
    | (Return a, w') => k a w'
    | (Raise e, w') => (Raise e, w')
    | (Unmodelled, w') => (Unmodelled, w')
    end.

(** [try: m except Exception: h]. *)
Definition try_except {A} (m : M A) (h : exn -> M A) : M A :=
  fun w =>
    match m w with
    | (Raise e, w') => h e w'
    | other => other
    end.

Notation "'let*' x ':=' m 'in' k" := (bind m (fun x => k))
  (at level 10, x pattern, m at level 100, k at level 200).

Definition log (c : db_call) : M unit :=
  fun w => (Return tt, World (item w) (calls w ++ [c])).

Definition get_items : M (list document) := fun w => (Return (item w), w).
Definition put_items (l : list document) : M unit := fun w => (Return tt, World l (calls w)).

(** ** Regular expressions, as the store's [$regex] reads them *)

(** The modelled fragment: a pattern is a sequence of literal characters and
    dots. *)
Inductive regex_atom :=
| RChar (c : ascii)
| RAny.

(** The characters with a special meaning outside a character class. *)
Definition is_regex_meta (c : ascii) : bool :=
  existsb (Ascii.eqb c) (chars "\^$.[|()?*+{").

(** Reading a pattern.  A backslash before a character that is neither a
    letter nor a digit makes that character literal.  [None]: the pattern uses
    an operator outside the fragment, is not ASCII or holds a NUL. *)
Fixpoint regex_compile (p : list ascii) : option (list regex_atom) :=
  match p with
  | [] => Some []
  | c :: p' =>
      if negb (is_ascii c) || (code c =? 0)%N then None
      else if Ascii.eqb c "." then cons RAny <$> regex_compile p'
      else if Ascii.eqb c "\" then
        match p' with
        | e :: p'' =>
            if is_ascii e && negb (is_alnum e)
            then cons (RChar e) <$> regex_compile p''
            else None
        | [] => None
        end
      else if is_regex_meta c then None
      else cons (RChar c) <$> regex_compile p'
  end.

(** A dot matches any character but a line feed. *)
Definition atom_matches (caseless : bool) (a : regex_atom) (c : ascii) : bool :=
  match a with
  | RChar x => if caseless then Ascii.eqb (lower x) (lower c) else Ascii.eqb x c
  | RAny => negb (Ascii.eqb c "010")
  end.

(** The pattern matches at the start of the subject. *)
Fixpoint match_here (caseless : bool) (r : list regex_atom) (s : list ascii) : bool :=
  match r, s with
  | [], _ => true
  | a :: r', c :: s' => atom_matches caseless a c && match_here caseless r' s'
  | _ :: _, [] => false
  end.

(** The pattern matches somewhere in the subject (it is not anchored). *)
Fixpoint match_anywhere (caseless : bool) (r : list regex_atom) (s : list ascii) : bool :=
  match_here caseless r s
  || match s with
     | [] => false
     | _ :: s' => match_anywhere caseless r s'
     end.

(** The pattern has a dot. *)
Definition has_dot (r : list regex_atom) : bool :=
  existsb (fun a => match a with RAny => true | RChar _ => false end) r.

(** The text holds U+017F (long s, bytes C5 BF) or U+212A (the Kelvin sign,
    bytes E2 84 AA): the two characters outside ASCII that a caseless match
    may take for an ASCII letter. *)
Fixpoint has_wide_fold (s : list ascii) : bool :=
  match s with
  | [] => false
  | a :: s' =>
      match s' with
      | b :: s'' =>
          ((code a =? 197) && (code b =? 191))%N
          || match s'' with
             | c :: _ => ((code a =? 226) && (code b =? 132) && (code c =? 170))%N
             | [] => false
             end
      | [] => false
      end
      || has_wide_fold s'
  end.

(** [{"$regex": pattern, "$options": options}] against a text.  The only
    options read are none and ["i"] (caseless).  The pattern is ASCII, so on
    the bytes of a text outside ASCII its literal characters match as they do
    on the characters, unless the text holds one of the two characters above;
    a dot would have to take a whole character there, which is not
    modelled. *)
Definition regex_search (pattern options subject : string) : option bool :=
  match regex_compile (chars pattern) with
  | None => None
  | Some r =>
      if forallb is_ascii (chars subject)
         || negb (has_dot r || has_wide_fold (chars subject))
      then
        if String.eqb options "i" then Some (match_anywhere true r (chars subject))
        else if String.eqb options "" then Some (match_anywhere false r (chars subject))
        else None
      else None
  end.

(** ** Filters *)

(** The conditions the handlers put on a field:
    [{"_id": oid}], [{"_id": {"$ne": oid}}], [{k: s}] for a text [s], and
    [{k: {"$regex": pattern, "$options": options}}]. *)
Inductive field_cond :=
| IdEq (oid : ObjectId)
| IdNe (oid : ObjectId)
| FieldEq (k : string) (s : string)
| FieldRegex (k : string) (pattern options : string).

(** An entry of a filter: a condition, or [{"$or": [...]}]. *)
Inductive clause :=
| Cond (c : field_cond)
| Or (cs : list field_cond).

(** A filter holds when all its entries do; [{}] is the empty list. *)
Definition filter_query := list clause.

Definition opt_and (a b : option bool) : option bool :=
  match a, b with
  | Some x, Some y => Some (x && y)
  | _, _ => None
  end.

Definition opt_or (a b : option bool) : option bool :=
  match a, b with
  | Some x, Some y => Some (x || y)
  | _, _ => None
  end.

(** Only a text field equals a text or matches a regular expression. *)
Definition matches_cond (c : field_cond) (d : document) : option bool :=
  match c with
  | IdEq oid => Some (bool_decide (_id d = oid))
  | IdNe oid => Some (negb (bool_decide (_id d = oid)))
  | FieldEq k s =>
      Some match fields d !! k with
           | Some (VStr t) => String.eqb t s
           | _ => false
           end
  | FieldRegex k pattern options =>
      match fields d !! k with
      | Some (VStr t) => regex_search pattern options t
      | _ => Some false
      end
  end.

Definition matches_clause (c : clause) (d : document) : option bool :=
  match c with
  | Cond c => matches_cond c d
  | Or cs => fold_right (fun c acc => opt_or (matches_cond c d) acc) (Some false) cs
  end.

Definition matches (flt : filter_query) (d : document) : option bool :=
  fold_right (fun c acc => opt_and (matches_clause c d) acc) (Some true) flt.

(** ** The operations of [db.item] *)

(** The first document, in natural order, that the filter matches, with the
    documents before and after it. *)
Fixpoint first_match (flt : filter_query) (l : list document)
  : result (option (list document * document * list document)) :=
  match l with
  | [] => Return None
  | d :: l' =>
      match matches flt d with
      | None => Unmodelled
      | Some true => Return (Some ([], d, l'))
      | Some false =>
          match first_match flt l' with
          | Return (Some (pre, x, post)) => Return (Some (d :: pre, x, post))
          | other => other
          end
      end
  end.

(** All the documents the filter matches, in natural order. *)
Fixpoint select (flt : filter_query) (l : list document) : result (list document) :=
  match l with
  | [] => Return []
  | d :: l' =>
      match matches flt d, select flt l' with
      | Some b, Return r => Return (if b then d :: r else r)
      | None, _ => Unmodelled
      | _, other => other
      end
  end.

(** [db.item.find_one(flt)]: a document or [None]. *)
Definition find_one (flt : filter_query) : M (option document) :=
  let* _ := log call_find_one in
  let* l := get_items in
  let* r := lift (first_match flt l) in
  ret match r with
      | Some (_, d, _) => Some d
      | None => None
      end.

(** [list(db.item.find(flt))]. *)
Definition find (flt : filter_query) : M (list document) :=
  let* _ := log call_find in
  let* l := get_items in
  lift (select flt l).

(** The integers the driver can write: those of 8 bytes. *)
Definition int64_min : Z := -9223372036854775808.
Definition int64_max : Z := 9223372036854775807.

(** What the driver's encoder does with a value on its way to the store: an
    [int] outside 8 bytes makes it raise [OverflowError]. *)
Definition bson_value_ok (v : value) : bool :=
  match v with
  | VInt z => (int64_min <=? z) && (z <=? int64_max)
  | _ => true
  end.

Definition bson_encodable (doc : gmap string value) : bool :=
  forallb (fun kv => bson_value_ok (snd kv)) (map_to_list doc).

(** [db.item.update_one(flt, {"$set": set})]: the driver encodes [set]
    before anything is sent, and raises [OverflowError] where it cannot; the
    fields of [set] are then written over those of the first matching
    document; answers [matched_count]. *)
Definition update_one (flt : filter_query) (set : gmap string value) : M nat :=
  let* _ := log call_update_one in
  if bson_encodable set then
    let* l := get_items in
    let* r := lift (first_match flt l) in
    match r with
    | Some (pre, d, post) =>
        let* _ := put_items (pre ++ Doc (_id d) (set ∪ fields d) :: post) in
        ret 1%nat
    | None => ret 0%nat
    end
  else raise OverflowError.

(** [db.item.delete_one(flt)]: removes the first matching document; answers
    [deleted_count]. *)
Definition delete_one (flt : filter_query) : M nat :=
  let* _ := log call_delete_one in
  let* l := get_items in
  let* r := lift (first_match flt l) in
  match r with
  | Some (pre, _, post) =>
      let* _ := put_items (pre ++ post) in
      ret 1%nat
  | None => ret 0%nat
  end.

(** [db.item.insert_one(doc)], where the driver gave the document the
    identifier [new_id]: the driver encodes the document before anything is
    sent, and raises [OverflowError] where it cannot; the store refuses an
    [_id] it already holds. *)
Definition insert_one (new_id : ObjectId) (doc : gmap string value) : M ObjectId :=
  let* _ := log call_insert_one in
  if bson_encodable doc then
    let* l := get_items in
    if existsb (fun d => bool_decide (_id d = new_id)) l
    then raise DuplicateKeyError
    else
      let* _ := put_items (l ++ [Doc new_id doc]) in
      ret new_id
  else raise OverflowError.

(** ** Request bodies

    The framework validates a body against its class before the handler
    runs; the handlers below are given validated bodies. *)

Definition set_opt (k : string) (v : option value) (m : gmap string value)
  : gmap string value :=
  match v with
  | Some x => <[k := x]> m
  | None => m
  end.

Module ItemUpdate.
(** Every field is optional and [None] by default; the numbers are
    validated to be at least 0. *)
Record t := Build {
  name : option string;
  sku : option string;
  category : option string;
  location : option string;
  quantity : option Z;
  min_stock : option Z;
  cost : option float;
  price : option float
}.

(** [data.model_dump(exclude_none=True)]: the fields that are not [None]. *)
Definition model_dump_exclude_none (data : t) : gmap string value :=
  set_opt "name" (VStr <$> name data)
    (set_opt "sku" (VStr <$> sku data)
      (set_opt "category" (VStr <$> category data)
        (set_opt "location" (VStr <$> location data)
          (set_opt "quantity" (VInt <$> quantity data)
            (set_opt "min_stock" (VInt <$> min_stock data)
              (set_opt "cost" (VFloat <$> cost data)
                (set_opt "price" (VFloat <$> price data) ∅))))))).
End ItemUpdate.

(** [delta]: positive to add, negative to remove. *)
Record AdjustStock := { delta : Z }.

Module Item.
(** Modelled from the spec: [schemas.Item] is not among the sources.  The
    item of the data model without its identifier: [name] and [sku] are
    texts, [category] and [location] optional texts, [quantity] and
    [min_stock] integers, [cost] and [price] numbers. *)
Record t := Build {
  name : string;
  sku : string;
  category : option string;
  location : option string;
  quantity : Z;
  min_stock : Z;
  cost : float;
  price : float
}.

Definition opt_text (s : option string) : value :=
  match s with
  | Some x => VStr x
  | None => VNone
  end.

(** [data.model_dump()]: every field, an absent optional one as [None]. *)
Definition model_dump (data : t) : gmap string value :=
  <["name" := VStr (name data)]>
    (<["sku" := VStr (sku data)]>
      (<["category" := opt_text (category data)]>
        (<["location" := opt_text (location data)]>
          (<["quantity" := VInt (quantity data)]>
            (<["min_stock" := VInt (min_stock data)]>
              (<["cost" := VFloat (cost data)]>
                (<["price" := VFloat (price data)]> ∅))))))).
End Item.

(** ** The store adapter *)

(** Modelled from the spec: [database.create_document] is not among the
    sources.  "insert(collection, document) -> id: inserts and returns the new
    identifier."  The collection is [item]; [new_id] is the identifier the
    driver generates for this insert. *)
Definition create_document (new_id : ObjectId) (data : Item.t) : M string :=
  let* inserted_id := insert_one new_id (Item.model_dump data) in
  ret (str_of_ObjectId inserted_id).

(** Modelled from the spec: [database.get_documents] is not among the
    sources.  "find(collection, filter) -> sequence of documents: returns all
    matching documents."  The collection is [item]. *)
Definition get_documents (flt : filter_query) : M (list document) := find flt.

(** ** Utility functions *)

(** [serialize_doc]: a copy of the document with [_id] replaced by [id], the
    identifier as a string.  (A stored document always has its [_id].) *)
Definition serialize_doc (doc : document) : gmap string value :=
  <["id" := VStr (str_of_ObjectId (_id doc))]> (fields doc).

(** [serialize_doc(doc)] where [doc] comes from [find_one]: unpacking [None]
    raises [TypeError]. *)
Definition serialize_found (doc : option document) : M (gmap string value) :=
  match doc with
  | Some d => ret (serialize_doc d)
  | None => raise TypeError
  end.

(** Truth value of an optional text: [None] and the empty text are false. *)
Definition given (s : option string) : option string :=
  match s with
  | Some x => if String.eqb x "" then None else Some x
  | None => None
  end.

(** [sum] over results computed from left to right: the first one that is
    not a value ends the sum. *)
Fixpoint py_sum (l : list (result Z)) : result Z :=
  match l with
  | [] => Return 0
  | Return x :: l' =>
      match py_sum l' with
      | Return s => Return (x + s)
      | other => other
      end
  | Raise e :: _ => Raise e
  | Unmodelled :: _ => Unmodelled
  end.

Definition result_bind {A B} (r : result A) (k : A -> result B) : result B :=
  match r with
  | Return a => k a
  | Raise e => Raise e
  | Unmodelled => Unmodelled
  end.

(** ** Inventory API *)

(** [try: oid = ObjectId(item_id) except Exception: raise HTTPException(400)],
    the opening of the three handlers that take a path id. *)
Definition oid_or_400 (item_id : string) : M ObjectId :=
  try_except (lift (ObjectId_of_str item_id))
    (fun _ => raise (HTTPException 400 "Invalid item id")).

Definition list_items (q category : option string) : M (list (gmap string value)) :=
  let by_text :=
    match given q with
    | Some q => [Or [FieldRegex "name" q "i"; FieldRegex "sku" q "i"]]
    | None => []
    end in
  let by_category :=
    match given category with
    | Some category => [Cond (FieldEq "category" category)]
    | None => []
    end in
  let* docs := get_documents (by_text ++ by_category)%list in
  ret (map serialize_doc docs).

Definition create_item (new_id : ObjectId) (item : Item.t) : M (gmap string value) :=
  let* existing := find_one [Cond (FieldEq "sku" (Item.sku item))] in
  match existing with
  | Some _ => raise (HTTPException 400 "SKU already exists")
  | None =>
      let* inserted_id := create_document new_id item in
      let* oid := lift (ObjectId_of_str inserted_id) in
      let* doc := find_one [Cond (IdEq oid)] in
      serialize_found doc
  end.

(** [payload] has the key ["sku"] exactly when [data.sku] is not [None], and
    then holds that text. *)
Definition update_item (item_id : string) (data : ItemUpdate.t) : M (gmap string value) :=
  let* oid := oid_or_400 item_id in
  let payload := ItemUpdate.model_dump_exclude_none data in
  if (size payload =? 0)%nat then raise (HTTPException 400 "No fields to update")
  else
    let* _ :=
      match ItemUpdate.sku data with
      | Some sku =>
          let* existing := find_one [Cond (FieldEq "sku" sku); Cond (IdNe oid)] in
          match existing with
          | Some _ => raise (HTTPException 400 "SKU already in use by another item")
          | None => ret tt
          end
      | None => ret tt
      end in
    let* matched_count := update_one [Cond (IdEq oid)] payload in
    if (matched_count =? 0)%nat then raise (HTTPException 404 "Item not found")
    else
      let* doc := find_one [Cond (IdEq oid)] in
      serialize_found doc.

Definition adjust_stock (item_id : string) (body : AdjustStock) : M (gmap string value) :=
  let* oid := oid_or_400 item_id in
  let* doc := find_one [Cond (IdEq oid)] in
  match doc with
  | None => raise (HTTPException 404 "Item not found")
  | Some doc =>
      let* quantity := lift (py_int (dict_get (fields doc) "quantity" (VInt 0))) in
      let new_qty := Z.max 0 (quantity + delta body) in
      let* _ := update_one [Cond (IdEq oid)] {["quantity" := VInt new_qty]} in
      let* updated := find_one [Cond (IdEq oid)] in
      serialize_found updated
  end.

Definition delete_item (item_id : string) : M (gmap string value) :=
  let* oid := oid_or_400 item_id in
  let* deleted_count := delete_one [Cond (IdEq oid)] in
  if (deleted_count =? 0)%nat then raise (HTTPException 404 "Item not found")
  else ret {["ok" := VBool true]}.

(** The summand of [total_units] for one item. *)
Definition units_of (i : document) : result Z :=
  py_int (dict_get (fields i) "quantity" (VInt 0)).

(** The summand of [low_stock] for one item: 1 when the condition holds. *)
Definition low_of (i : document) : result Z :=
  result_bind (py_int (py_or (dict_get (fields i) "min_stock" (VInt 0)) (VInt 0)))
    (fun min_stock =>
       result_bind (py_int (py_or (dict_get (fields i) "quantity" (VInt 0)) (VInt 0)))
         (fun quantity => Return (if min_stock >? quantity then 1 else 0))).

Definition inventory_stats : M (gmap string value) :=
  let* items := find [] in
  let total_skus := Z.of_nat (length items) in
  let* total_units := lift (py_sum (map units_of items)) in
  let* low_stock := lift (py_sum (map low_of items)) in
  ret (<["total_skus" := VInt total_skus]>
        (<["total_units" := VInt total_units]>
          (<["low_stock" := VInt low_stock]> ∅))).

(** ** Responses *)

(** What the framework sends: the route's status code with the returned value
    as body, the status and detail of an [HTTPException], or the plain 500 of
    an exception nobody handles. *)
Inductive response (A : Type) :=
| Response (status_code : nat) (body : option A)
| ErrorResponse (status_code : nat) (detail : string)
| InternalServerError
| ResponseUnmodelled.
Arguments Response {A} status_code body.
Arguments ErrorResponse {A} status_code detail.
Arguments InternalServerError {A}.
Arguments ResponseUnmodelled {A}.

(** FastAPI's rule: a response with a status below 200, or 204, 205 or 304,
    carries no body, whatever the handler returned. *)
Definition is_body_allowed_for_status_code (status_code : nat) : bool :=
  negb ((status_code <? 200)%nat
        || existsb (Nat.eqb status_code) [204; 205; 304]%nat).

Definition respond {A} (status_code : nat) (r : result A) : response A :=
  match r with
  | Return a =>
      Response status_code
        (if is_body_allowed_for_status_code status_code then Some a else None)
  | Raise (HTTPException status detail) => ErrorResponse status detail
  | Raise _ => InternalServerError
  | Unmodelled => ResponseUnmodelled
  end.

(** [@app.get(path)], [@app.post(path, status_code=...)] and the like around
    a handler. *)
Definition route {A} (status_code : nat) (handler : M A) (w : world)
  : response A * world :=
  let (r, w') := handler w in (respond status_code r, w').

(** [GET /items] *)
Definition GET_items (q category : option string) := route 200 (list_items q category).
(** [POST /items], status 201 *)
Definition POST_items (new_id : ObjectId) (item : Item.t) := route 201 (create_item new_id item).
(** [PUT /items/{item_id}] *)
Definition PUT_item (item_id : string) (data : ItemUpdate.t) := route 200 (update_item item_id data).
(** [POST /items/{item_id}/adjust] *)
Definition POST_item_adjust (item_id : string) (body : AdjustStock) := route 200 (adjust_stock item_id body).
(** [DELETE /items/{item_id}], status 204 *)
Definition DELETE_item (item_id : string) := route 204 (delete_item item_id).
(** [GET /items/stats] *)
Definition GET_items_stats := route 200 inventory_stats.

(** * Vocabulary of the specification *)

(** The document's field [k] holds the text [s]. *)
Definition text_field (k s : string) (d : document) : Prop :=
  fields d !! k = Some (VStr s).

#[global] Instance text_field_dec k s d : Decision (text_field k s d).
Proof.
  unfold text_field.
  destruct (fields d !! k) as [[| | | |t]|]; try (right; congruence).
  destruct (decide (t = s)) as [->|]; [left; reflexivity | right; congruence].
Defined.

(** The document's identifier is [oid]. *)
Definition has_id (oid : ObjectId) (d : document) : Prop := _id d = oid.

#[global] Instance has_id_dec oid d : Decision (has_id oid d).
Proof. unfold has_id. apply _. Defined.

(** The document's field [k] holds the integer [z]. *)
Definition int_field (k : string) (z : Z) (d : document) : Prop :=
  fields d !! k = Some (VInt z).

(** An item as the data model has it: [quantity] and [min_stock] are
    integers. *)
Definition is_item (d : document) : Prop :=
  (∃ q, int_field "quantity" q d) ∧ (∃ m, int_field "min_stock" m d).

(** The integer in field [k]; 0 when the field is absent or not an integer. *)
Definition int_of_field (k : string) (d : document) : Z :=
  match fields d !! k with
  | Some (VInt z) => z
  | _ => 0
  end.

Definition quantity_of (d : document) : Z := int_of_field "quantity" d.
Definition min_stock_of (d : document) : Z := int_of_field "min_stock" d.

(** The sum of all item quantities. *)
Definition total_quantity (l : list document) : Z :=
  foldr (λ d acc, quantity_of d + acc) 0 l.

(** The number of items whose [min_stock] is strictly greater than their
    [quantity]. *)
Definition low_stock_count (l : list document) : Z :=
  Z.of_nat (length (filter (λ d, quantity_of d < min_stock_of d) l)).

(** Field [k] is an integer or absent; an integer, null or absent. *)
Definition int_or_absent (k : string) (d : document) : Prop :=
  fields d !! k = None ∨ ∃ z, int_field k z d.
Definition int_or_null (k : string) (d : document) : Prop :=
  fields d !! k = None ∨ fields d !! k = Some VNone ∨ ∃ z, int_field k z d.

(** The body of the stats response. *)
Definition stats_body (total_skus total_units low_stock : Z) : gmap string value :=
  <["total_skus" := VInt total_skus]>
    (<["total_units" := VInt total_units]>
      (<["low_stock" := VInt low_stock]> ∅)).

(** The number of items with SKU [s]. *)
Definition count_sku (s : string) (l : list document) : nat :=
  length (filter (text_field "sku" s) l).

(** SKU uniqueness: no SKU is on more than one item. *)
Definition sku_unique (l : list document) : Prop :=
  ∀ s, (count_sku s l ≤ 1)%nat.

(** The value the update request supplies for field [k], if any. *)
Definition supplied (data : ItemUpdate.t) (k : string) : option value :=
  if String.eqb k "name" then VStr <$> ItemUpdate.name data
  else if String.eqb k "sku" then VStr <$> ItemUpdate.sku data
  else if String.eqb k "category" then VStr <$> ItemUpdate.category data
  else if String.eqb k "location" then VStr <$> ItemUpdate.location data
  else if String.eqb k "quantity" then VInt <$> ItemUpdate.quantity data
  else if String.eqb k "min_stock" then VInt <$> ItemUpdate.min_stock data
  else if String.eqb k "cost" then VFloat <$> ItemUpdate.cost data
  else if String.eqb k "price" then VFloat <$> ItemUpdate.price data
  else None.

(** Another item than [oid] has SKU [s]. *)
Definition sku_of_other (s : string) (oid : ObjectId) (d : document) : Prop :=
  text_field "sku" s d ∧ ¬ has_id oid d.

(** The integer fits in 8 bytes. *)
Definition fits_int64 (z : Z) : Prop := int64_min ≤ z ≤ int64_max.

(** Every integer the update request supplies fits in 8 bytes. *)
Definition ints_fit (data : ItemUpdate.t) : Prop :=
  ∀ k z, supplied data k = Some (VInt z) → fits_int64 z.

(** The end of [update_item] once the checks have passed: the write of
    [payload] on the document [oid], and the fetch that follows it. *)
Definition set_and_fetch (oid : ObjectId) (payload : gmap string value) (w : world)
  : result (gmap string value) * world :=
  if bson_encodable payload then
    match list_find (has_id oid) (item w) with
    | Some (i, d) =>
        (Return (serialize_doc (Doc oid (payload ∪ fields d))),
         World (<[i := Doc oid (payload ∪ fields d)]> (item w))
               (calls w ++ [call_update_one; call_find_one]))
    | None =>
        (Raise (HTTPException 404 "Item not found"),
         World (item w) (calls w ++ [call_update_one]))
    end
  else (Raise OverflowError, World (item w) (calls w ++ [call_update_one])).

(** ** The write operations, in the words of the specification *)

(** Adjust-stock as stated: for a stored item with quantity [q] and any
    [delta], the request returns the item and the item's stored quantity is
    [max(0, q + delta)] afterwards. *)
Definition adjust_stock_claim (item_id : string) (delta : Z) (w : world) : Prop :=
  ∀ oid i d q,
    ObjectId_of_str item_id = Return oid →
    list_find (has_id oid) (item w) = Some (i, d) →
    int_field "quantity" q d →
    ∃ body w' d',
      adjust_stock item_id {| delta := delta |} w = (Return body, w')
      ∧ item w' !! i = Some d'
      ∧ int_field "quantity" (Z.max 0 (q + delta)) d'.

(** Create as stated: a request whose SKU no stored item has inserts the
    item and is answered with status 201. *)
Definition create_item_claim (new_id : ObjectId) (data : Item.t) (w : world) : Prop :=
  (∀ d, d ∈ item w → ¬ text_field "sku" (Item.sku data) d) →
  ∃ body w',
    POST_items new_id data w = (Response 201 (Some body), w')
    ∧ ∃ d, d ∈ item w' ∧ text_field "sku" (Item.sku data) d.

(** Update as stated: an update of an item that supplies the SKU the item
    already has, no other item having it, succeeds. *)
Definition own_sku_claim (item_id : string) (data : ItemUpdate.t) (w : world) : Prop :=
  ∀ oid i d s,
    ObjectId_of_str item_id = Return oid →
    ItemUpdate.sku data = Some s →
    list_find (has_id oid) (item w) = Some (i, d) →
    text_field "sku" s d →
    (∀ e, e ∈ item w → text_field "sku" s e → has_id oid e) →
    ∃ body w', update_item item_id data w = (Return body, w').

(** ** Searching, in the words of the specification *)

(** [p] is a prefix of [s]; [p] occurs somewhere in [s]. *)
Fixpoint is_prefix (p s : list ascii) : bool :=
  match p, s with
  | [], _ => true
  | a :: p', c :: s' => Ascii.eqb a c && is_prefix p' s'
  | _ :: _, [] => false
  end.

Fixpoint is_infix (p s : list ascii) : bool :=
  is_prefix p s
  || match s with
     | [] => false
     | _ :: s' => is_infix p s'
     end.

(** [q] is a case-insensitive substring of [s]: as a proposition, and as
    the test that decides it. *)
Definition substring_ci (q s : string) : Prop :=
  ∃ pre suf, map lower (chars s) = (pre ++ map lower (chars q) ++ suf)%list.

Definition contains_ci (q s : string) : bool :=
  is_infix (map lower (chars q)) (map lower (chars s)).

(** The text in field [k], if the field holds a text. *)
Definition text_of (k : string) (d : document) : option string :=
  match fields d !! k with
  | Some (VStr t) => Some t
  | _ => None
  end.

(** [q] matches an item when it is a case-insensitive substring of the
    item's name or of its SKU. *)
Definition search_hit (q : string) (d : document) : Prop :=
  ∃ t, (text_field "name" t d ∨ text_field "sku" t d) ∧ substring_ci q t.

Definition search_hit_b (q : string) (d : document) : bool :=
  match text_of "name" d with
  | Some t => contains_ci q t
  | None => false
  end
  || match text_of "sku" d with
     | Some t => contains_ci q t
     | None => false
     end.





(** ** Sample data *)

Module Sample.
Definition widget_id : ObjectId := mkObjectId "65f0a1b2c3d4e5f601234567".
Definition gadget_id : ObjectId := mkObjectId "65f0a1b2c3d4e5f601234568".
Definition fresh_id : ObjectId := mkObjectId "65f0a1b2c3d4e5f601234569".

Definition widget_item : Item.t :=
  Item.Build "Widget" "WID-1" (Some "tools") None 10 3 2.5%float 4%float.
Definition gadget_item : Item.t :=
  Item.Build "Gadget" "GAD-7" (Some "toys") (Some "A3") 5 10 1%float 1.5%float.

Definition widget : document := Doc widget_id (Item.model_dump widget_item).
Definition gadget : document := Doc gadget_id (Item.model_dump gadget_item).

(** A store with one item, and one with two. *)
Definition store1 : world := World [widget] [].
Definition store2 : world := World [widget; gadget] [].
Definition empty_store : world := World [] [].

(** An update that supplies the quantity only, and the widget after it. *)
Definition restock : ItemUpdate.t :=
  ItemUpdate.Build None None None None (Some 7) None None None.
Definition restocked : document :=
  Doc widget_id (ItemUpdate.model_dump_exclude_none restock ∪ fields widget).

(** An update that supplies the widget's own SKU again, with a new name. *)
Definition rename : ItemUpdate.t :=
  ItemUpdate.Build (Some "Widget Mk2") (Some "WID-1") None None None None None None.
Definition renamed : document :=
  Doc widget_id (ItemUpdate.model_dump_exclude_none rename ∪ fields widget).

(** A document whose [quantity] is stored as null. *)
Definition null_quantity : document :=
  Doc widget_id (<["quantity" := VNone]> (Item.model_dump widget_item)).
Definition null_store : world := World [null_quantity] [].

(** The first integer that does not fit in 8 bytes, [2^63]; the gadget with
    that quantity; an update that supplies the widget's own SKU with that
    quantity. *)
Definition too_big : Z := 9223372036854775808.
Definition big_gadget_item : Item.t :=
  Item.Build "Gadget" "GAD-7" (Some "toys") (Some "A3") too_big 10 1%float 1.5%float.
Definition big_restock : ItemUpdate.t :=
  ItemUpdate.Build None (Some "WID-1") None None (Some too_big) None None None.

(** An item whose name is not ASCII, and a store that holds it. *)
Definition cafe_id : ObjectId := mkObjectId "65f0a1b2c3d4e5f60123456a".
Definition cafe_item : Item.t :=
  Item.Build "Café Widget" "CAF-2" (Some "tools") None 2 1 3%float 5%float.
Definition cafe : document := Doc cafe_id (Item.model_dump cafe_item).
Definition store3 : world := World [widget; gadget; cafe] [].
End Sample.

(** * The rest of [main.py] *)

(** ** Field constraints of [ItemUpdate]

    [Field(None, ge=0)] on [quantity], [min_stock], [cost] and [price]: a
    value that is given must be at least 0 ([None] passes; a NaN does not). *)
Definition ge0 (z : option Z) : bool :=
  match z with
  | Some z => 0 <=? z
  | None => true
  end.

Definition ge0_float (f : option float) : bool :=
  match f with
  | Some f => PrimFloat.leb 0%float f
  | None => true
  end.

Definition ItemUpdate_valid (data : ItemUpdate.t) : bool :=
  ge0 (ItemUpdate.quantity data) && ge0 (ItemUpdate.min_stock data)
  && ge0_float (ItemUpdate.cost data) && ge0_float (ItemUpdate.price data).

(** The stock invariant: an integer [quantity] or [min_stock] is not
    negative. *)
Definition stock_nonneg (d : document) : Prop :=
  ∀ k z, k = "quantity" ∨ k = "min_stock" → int_field k z d → 0 ≤ z.

(** ** The diagnostic route [/test] *)

(** The [db] handle as [test_database] uses it: its [name], and what
    [db.list_collection_names()] does, the names or an exception [e] given by
    its [str(e)]. *)
Record Database := {
  db_name : string;
  list_collection_names : string + list string
}.

Module Diagnostics.
(** The [response] dictionary of [test_database], by key. *)
Record t := Build {
  backend : string;
  database : string;
  database_url : option string;
  database_name : option string;
  connection_status : string;
  collections : list string
}.

Definition set_database (v : string) (r : t) : t :=
  Build (backend r) v (database_url r) (database_name r) (connection_status r) (collections r).
Definition set_database_url (v : option string) (r : t) : t :=
  Build (backend r) (database r) v (database_name r) (connection_status r) (collections r).
Definition set_database_name (v : option string) (r : t) : t :=
  Build (backend r) (database r) (database_url r) v (connection_status r) (collections r).
Definition set_connection_status (v : string) (r : t) : t :=
  Build (backend r) (database r) (database_url r) (database_name r) v (collections r).
Definition set_collections (v : list string) (r : t) : t :=
  Build (backend r) (database r) (database_url r) (database_name r) (connection_status r) v.
End Diagnostics.

(** [s[:50]].  Python counts characters, the model bytes: they agree on
    ASCII text, and other text is left out. *)
Definition first_50 (s : string) : result string :=
  if forallb is_ascii (chars s) then Return (substring 0 50 s) else Unmodelled.

(** ["✅ Set" if os.getenv(k) else "❌ Not Set"]: an unset variable and an
    empty one are both false. *)
Definition env_flag (getenv : string → option string) (k : string) : string :=
  match given (getenv k) with
  | Some _ => "✅ Set"
  | None => "❌ Not Set"
  end.

(** [test_database], with the module's [db] and the process environment as
    arguments.  Inside the outer [try] only [db.list_collection_names()] can
    raise, and the inner handler catches it, so the outer handler is not
    reached and has no counterpart here. *)
Definition test_database (db : option Database) (getenv : string → option string)
  : result Diagnostics.t :=
  let response :=
    Diagnostics.Build "✅ Running" "❌ Not Available" None None "Not Connected" [] in
  let tried :=
    match db with
    | Some db =>
        let response := Diagnostics.set_database "✅ Available" response in
        let response := Diagnostics.set_database_url (Some "✅ Configured") response in
        let response := Diagnostics.set_database_name (Some (db_name db)) response in
        let response := Diagnostics.set_connection_status "Connected" response in
        match list_collection_names db with
        | inr collections =>
            let response := Diagnostics.set_collections (take 10 collections) response in
            Return (Diagnostics.set_database "✅ Connected & Working" response)
        | inl e =>
            result_bind (first_50 e)
              (fun e50 =>
                 Return (Diagnostics.set_database
                           ("⚠️  Connected but Error: " ++ e50) response))
        end
    | None =>
        Return (Diagnostics.set_database "⚠️  Available but not initialized" response)
    end in
  result_bind tried
    (fun response =>
       let response :=
         Diagnostics.set_database_url (Some (env_flag getenv "DATABASE_URL")) response in
       Return (Diagnostics.set_database_name
                 (Some (env_flag getenv "DATABASE_NAME")) response)).

(** ** More sample data *)

Module Sample2.
(** The widget with its quantity raised to 12. *)
Definition stocked : document :=
  Doc Sample.widget_id (<["quantity" := VInt 12]> (fields Sample.widget)).

(** A document without a [quantity]. *)
Definition no_quantity : document :=
  Doc Sample.widget_id (delete "quantity" (fields Sample.widget)).

(** A live handle that lists twelve collections, and one whose listing
    fails. *)
Definition live : Database :=
  {| db_name := "inventory";
     list_collection_names :=
       inr ["c01"; "c02"; "c03"; "c04"; "c05"; "c06";
            "c07"; "c08"; "c09"; "c10"; "c11"; "c12"] |}.
Definition failing : Database :=
  {| db_name := "inventory"; list_collection_names := inl "not authorized" |}.

(** An environment with the connection string set and the name empty. *)
Definition env (k : string) : option string :=
  if String.eqb k "DATABASE_URL" then Some "mongodb://localhost:27017"
  else if String.eqb k "DATABASE_NAME" then Some ""
  else None.
End Sample2.

(** * Properties *)

(** ** The store operations on a filter that decides a predicate *)

Section store_runs.
Context (flt : filter_query) (P : document -> Prop) `{!∀ d, Decision (P d)}.
Hypothesis matches_P : ∀ d, matches flt d = Some (bool_decide (P d)).

Lemma first_match_list_find (l : list document) :
  first_match flt l =
  Return match list_find P l with
         | Some (i, d) => Some (take i l, d, drop (S i) l)
         | None => None
         end.
Proof.
  induction l as [|x l IH]; [done|].
  cbn [first_match list_find]. rewrite matches_P.
  case_bool_decide as HP.
  - rewrite decide_True by done. done.
  - rewrite decide_False by done. rewrite IH.
    destruct (list_find P l) as [[i d]|]; done.
Qed.

Lemma select_filter (l : list document) :
  select flt l = Return (filter P l).
Proof.
  induction l as [|x l IH]; [done|].
  cbn [select]. rewrite matches_P, IH, filter_cons.
  case_bool_decide; [rewrite decide_True by done | rewrite decide_False by done]; done.
Qed.

Lemma find_one_run (w : world) :
  find_one flt w =
  (Return (snd <$> list_find P (item w)),
   World (item w) (calls w ++ [call_find_one])).
Proof.
  unfold find_one, bind, log, get_items, lift, ret. cbn.
  rewrite first_match_list_find.
  destruct (list_find P (item w)) as [[i d]|]; done.
Qed.

Lemma find_run (w : world) :
  find flt w = (Return (filter P (item w)), World (item w) (calls w ++ [call_find])).
Proof.
  unfold find, bind, log, get_items, lift. cbn.
  by rewrite select_filter.
Qed.

Lemma update_one_run (set : gmap string value) (w : world) :
  update_one flt set w =
  if bson_encodable set then
    match list_find P (item w) with
    | Some (i, d) =>
        (Return 1%nat,
         World (<[i := Doc (_id d) (set ∪ fields d)]> (item w)) (calls w ++ [call_update_one]))
    | None => (Return 0%nat, World (item w) (calls w ++ [call_update_one]))
    end
  else (Raise OverflowError, World (item w) (calls w ++ [call_update_one])).
Proof.
  unfold update_one, bind, log, get_items, put_items, lift, ret, raise. cbn.
  destruct (bson_encodable set); [|done]. cbn.
  rewrite first_match_list_find.
  destruct (list_find P (item w)) as [[i d]|] eqn:Hfind; [|done].
  apply list_find_Some in Hfind as (Hi & _ & _).
  cbn. by rewrite insert_take_drop by (by eapply lookup_lt_Some).
Qed.

Lemma delete_one_run (w : world) :
  delete_one flt w =
  match list_find P (item w) with
  | Some (i, _) =>
      (Return 1%nat, World (delete i (item w)) (calls w ++ [call_delete_one]))
  | None => (Return 0%nat, World (item w) (calls w ++ [call_delete_one]))
  end.
Proof.
  unfold delete_one, bind, log, get_items, put_items, lift, ret. cbn.
  rewrite first_match_list_find.
  destruct (list_find P (item w)) as [[i d]|]; [|done].
  cbn. by rewrite delete_take_drop.
Qed.
End store_runs.

(** ** What the handlers' filters decide *)

Lemma matches_all (d : document) : matches [] d = Some (bool_decide True).
Proof. done. Qed.

Lemma matches_id (oid : ObjectId) (d : document) :
  matches [Cond (IdEq oid)] d = Some (bool_decide (has_id oid d)).
Proof. cbn. by rewrite andb_true_r. Qed.

Lemma text_field_eqb (k s : string) (d : document) :
  match fields d !! k with
  | Some (VStr t) => String.eqb t s
  | _ => false
  end = bool_decide (text_field k s d).
Proof.
  assert (Hno : fields d !! k ≠ Some (VStr s) → false = bool_decide (text_field k s d))
    by (intros; symmetry; by apply bool_decide_eq_false_2).
  destruct (fields d !! k) as [v|] eqn:E; [|by apply Hno].
  destruct v as [| | | |t]; try by apply Hno.
  destruct (String.eqb_spec t s) as [->|Hne].
  - symmetry. by apply bool_decide_eq_true_2.
  - apply Hno. congruence.
Qed.

Lemma matches_text (k s : string) (d : document) :
  matches [Cond (FieldEq k s)] d = Some (bool_decide (text_field k s d)).
Proof. cbn. by rewrite text_field_eqb, andb_true_r. Qed.

Lemma matches_text_other (k s : string) (oid : ObjectId) (d : document) :
  matches [Cond (FieldEq k s); Cond (IdNe oid)] d =
  Some (bool_decide (text_field k s d ∧ ¬ has_id oid d)).
Proof.
  cbn. by rewrite text_field_eqb, andb_true_r, bool_decide_and, bool_decide_not.
Qed.

(** ** What the driver can encode *)

Lemma bson_encodable_spec (doc : gmap string value) :
  bson_encodable doc = true ↔ ∀ k v, doc !! k = Some v → bson_value_ok v = true.
Proof.
  unfold bson_encodable. rewrite forallb_forall. split.
  - intros Hall k v Hk. apply (Hall (k, v)).
    by apply list_elem_of_In, elem_of_map_to_list.
  - intros Hall [k v] Hkv%list_elem_of_In%elem_of_map_to_list. by apply (Hall k).
Qed.

Lemma bson_encodable_singleton (k : string) (v : value) :
  bson_encodable {[k := v]} = bson_value_ok v.
Proof.
  unfold bson_encodable. rewrite map_to_list_singleton. cbn. apply andb_true_r.
Qed.

Lemma bson_value_ok_int (z : Z) : bson_value_ok (VInt z) = true ↔ fits_int64 z.
Proof. unfold bson_value_ok, fits_int64. rewrite andb_true_iff, !Z.leb_le. done. Qed.

Lemma bson_value_ok_high (z : Z) : int64_max < z → bson_value_ok (VInt z) = false.
Proof.
  intros Hz. apply not_true_iff_false. rewrite bson_value_ok_int.
  unfold fits_int64. lia.
Qed.

(** A quantity that is not negative can be written when it is at most
    [int64_max]. *)
Lemma bson_value_ok_quantity (z : Z) :
  0 ≤ z → z ≤ int64_max → bson_value_ok (VInt z) = true.
Proof. intros H0 Hz. apply bson_value_ok_int. unfold fits_int64, int64_min. lia. Qed.

(** ** Running the handlers *)

Lemma oid_or_400_run (item_id : string) (w : world) :
  oid_or_400 item_id w =
  match ObjectId_of_str item_id with
  | Return oid => (Return oid, w)
  | Raise _ => (Raise (HTTPException 400 "Invalid item id"), w)
  | Unmodelled => (Unmodelled, w)
  end.
Proof.
  unfold oid_or_400, try_except, lift, raise.
  by destruct (ObjectId_of_str item_id).
Qed.

(** Writing over the first document with a given identifier, without
    changing the identifier, leaves it the first. *)
Lemma list_find_id_insert (oid : ObjectId) (l : list document) i d flds :
  list_find (has_id oid) l = Some (i, d) →
  list_find (has_id oid) (<[i := Doc oid flds]> l) = Some (i, Doc oid flds).
Proof.
  intros (Hi & Hd & Hleast)%list_find_Some.
  apply list_find_Some. split_and!.
  - apply list_lookup_insert_eq. by eapply lookup_lt_Some.
  - done.
  - intros j y Hj Hlt. apply (Hleast j); [|done].
    by rewrite list_lookup_insert_ne in Hj by lia.
Qed.

(** *** adjust_stock *)

Lemma adjust_stock_cases (item_id : string) (body : AdjustStock) (w : world) :
  adjust_stock item_id body w =
  match ObjectId_of_str item_id with
  | Raise _ => (Raise (HTTPException 400 "Invalid item id"), w)
  | Unmodelled => (Unmodelled, w)
  | Return oid =>
      let w1 := World (item w) (calls w ++ [call_find_one]) in
      match list_find (has_id oid) (item w) with
      | None => (Raise (HTTPException 404 "Item not found"), w1)
      | Some (i, d) =>
          match py_int (dict_get (fields d) "quantity" (VInt 0)) with
          | Return q =>
              let new_qty := Z.max 0 (q + delta body) in
              let updated := Doc oid (<["quantity" := VInt new_qty]> (fields d)) in
              if bson_value_ok (VInt new_qty) then
                (Return (serialize_doc updated),
                 World (<[i := updated]> (item w))
                       (calls w ++ [call_find_one; call_update_one; call_find_one]))
              else
                (Raise OverflowError,
                 World (item w) (calls w ++ [call_find_one; call_update_one]))
          | Raise e => (Raise e, w1)
          | Unmodelled => (Unmodelled, w1)
          end
      end
  end.
Proof.
  unfold adjust_stock, bind. rewrite oid_or_400_run.
  destruct (ObjectId_of_str item_id) as [oid| |]; [|done..].
  rewrite (find_one_run _ _ (matches_id oid)).
  destruct (list_find (has_id oid) (item w)) as [[i d]|] eqn:Hfind; [|done].
  assert (_id d = oid) as Hid by (by apply list_find_Some in Hfind as (_ & ? & _)).
  cbn [fmap option_fmap option_map snd]. unfold lift.
  destruct (py_int _) as [q| |]; [|done..].
  rewrite (update_one_run _ _ (matches_id oid)), bson_encodable_singleton.
  cbn zeta. destruct (bson_value_ok _); [|cbn [item calls]; by rewrite <- app_assoc].
  cbn [item calls]. rewrite Hfind, Hid.
  rewrite (find_one_run _ _ (matches_id oid)). cbn [item calls].
  rewrite <- insert_union_singleton_l.
  rewrite (list_find_id_insert _ _ _ _ _ Hfind). cbn.
  by rewrite <- !app_assoc.
Qed.

(** What [serialize_doc] answers: the identifier as a string under ["id"],
    and every other field as stored. *)
Lemma serialize_doc_lookup (d : document) :
  serialize_doc d !! "id" = Some (VStr (str_of_ObjectId (_id d)))
  ∧ ∀ k, k ≠ "id" → serialize_doc d !! k = fields d !! k.
Proof.
  unfold serialize_doc. split; [apply lookup_insert_eq|].
  intros k Hk. by rewrite lookup_insert_ne.
Qed.

(** C1, as the code has it: for a stored item with quantity [q],
    adjust-stock computes [max(0, q + delta)], which is never negative and
    is 0 for [delta = -(q + 5)].  When that number fits in 8 bytes it is
    written as the new quantity of the item, the other documents are left
    alone and the item is returned as fetched again after the write.  When it
    does not, the driver raises [OverflowError]: nothing is written and the
    answer is a 500. *)
Theorem adjust_stock_clamps (item_id : string) (body : AdjustStock) (w : world)
    (oid : ObjectId) (i : nat) (d : document) (q : Z) :
  ObjectId_of_str item_id = Return oid →
  list_find (has_id oid) (item w) = Some (i, d) →
  int_field "quantity" q d →
  let new_qty := Z.max 0 (q + delta body) in
  let updated := Doc oid (<["quantity" := VInt new_qty]> (fields d)) in
  (new_qty ≤ int64_max →
   adjust_stock item_id body w =
     (Return (serialize_doc updated),
      World (<[i := updated]> (item w))
            (calls w ++ [call_find_one; call_update_one; call_find_one]))
   ∧ serialize_doc updated !! "quantity" = Some (VInt new_qty)
   ∧ serialize_doc updated !! "id" = Some (VStr (str_of_ObjectId oid))
   ∧ (∀ k, k ≠ "id" → k ≠ "quantity" → serialize_doc updated !! k = fields d !! k))
  ∧ (int64_max < new_qty →
     adjust_stock item_id body w =
       (Raise OverflowError,
        World (item w) (calls w ++ [call_find_one; call_update_one]))
     ∧ fst (POST_item_adjust item_id body w) = InternalServerError)
  ∧ 0 ≤ new_qty
  ∧ (delta body = - (q + 5) → new_qty = 0).
Proof.
  intros Hoid Hfind Hq new_qty updated.
  assert (adjust_stock item_id body w =
          if bson_value_ok (VInt new_qty) then
            (Return (serialize_doc updated),
             World (<[i := updated]> (item w))
                   (calls w ++ [call_find_one; call_update_one; call_find_one]))
          else
            (Raise OverflowError,
             World (item w) (calls w ++ [call_find_one; call_update_one]))) as Hrun.
  { rewrite adjust_stock_cases, Hoid. cbn zeta. rewrite Hfind.
    unfold dict_get. by rewrite Hq. }
  split_and!.
  - intros Hfit. rewrite Hrun, bson_value_ok_quantity by (done || (subst new_qty; lia)).
    split_and!; [done| | |].
    + unfold serialize_doc. cbn [fields]. rewrite lookup_insert_ne by done.
      apply lookup_insert_eq.
    + apply (serialize_doc_lookup updated).
    + intros k Hid Hk. rewrite (proj2 (serialize_doc_lookup updated)) by done.
      subst updated. cbn [fields]. by rewrite lookup_insert_ne.
  - intros Hbig. unfold POST_item_adjust, route.
    by rewrite Hrun, bson_value_ok_high.
  - subst new_qty. lia.
  - subst new_qty. lia.
Qed.

Lemma adjust_stock_clamps_witness :
  let updated :=
    Doc Sample.widget_id (<["quantity" := VInt 0]> (fields Sample.widget)) in
  adjust_stock "65F0A1B2C3D4E5F601234567" {| delta := - (10 + 5) |} Sample.store1 =
    (Return (serialize_doc updated),
     World [updated] [call_find_one; call_update_one; call_find_one])
  ∧ serialize_doc updated !! "quantity" = Some (VInt 0)
  ∧ serialize_doc updated !! "id" = Some (VStr "65f0a1b2c3d4e5f601234567")
  ∧ (∀ k, k ≠ "id" → k ≠ "quantity" →
          serialize_doc updated !! k = fields Sample.widget !! k).
Proof.
  apply (adjust_stock_clamps "65F0A1B2C3D4E5F601234567" {| delta := - (10 + 5) |}
           Sample.store1 Sample.widget_id 0 Sample.widget 10
           eq_refl eq_refl eq_refl).
  unfold int64_max. cbn. lia.
Defined.

(** C1 as the specification states it, for every integer [delta], fails: a
    [delta] that takes the widget's quantity from 10 to [2^63] is answered
    with a 500, and the quantity stays 10. *)
Lemma adjust_stock_claim_fails :
  ¬ adjust_stock_claim "65f0a1b2c3d4e5f601234567" (Sample.too_big - 10) Sample.store1
  ∧ POST_item_adjust "65f0a1b2c3d4e5f601234567" {| delta := Sample.too_big - 10 |}
      Sample.store1
    = (InternalServerError, World [Sample.widget] [call_find_one; call_update_one])
  ∧ int_field "quantity" 10 Sample.widget.
Proof.
  split_and!; [|reflexivity..].
  intros Hclaim.
  destruct (Hclaim Sample.widget_id 0%nat Sample.widget 10 eq_refl eq_refl eq_refl)
    as (body & w' & d' & Hrun & _).
  vm_compute in Hrun. discriminate Hrun.
Qed.

(** *** delete_item *)

Lemma delete_item_run (item_id : string) (w : world) (oid : ObjectId) :
  ObjectId_of_str item_id = Return oid →
  delete_item item_id w =
  match list_find (has_id oid) (item w) with
  | Some (i, _) =>
      (Return {["ok" := VBool true]},
       World (delete i (item w)) (calls w ++ [call_delete_one]))
  | None =>
      (Raise (HTTPException 404 "Item not found"),
       World (item w) (calls w ++ [call_delete_one]))
  end.
Proof.
  intros Hoid. unfold delete_item, bind. rewrite oid_or_400_run, Hoid.
  rewrite (delete_one_run _ _ (matches_id oid)).
  by destruct (list_find (has_id oid) (item w)) as [[i d]|].
Qed.

(** Where identifiers are not repeated, deleting the document at [i] leaves
    none with its identifier. *)
Lemma delete_id_gone (oid : ObjectId) (l : list document) (i : nat) (d : document) :
  l !! i = Some d → has_id oid d →
  NoDup (_id <$> l) →
  Forall (λ x, ¬ has_id oid x) (delete i l).
Proof.
  intros Hi Hd Hnodup. apply Forall_lookup. intros j x Hj Hx.
  assert (∃ j', j' ≠ i ∧ l !! j' = Some x) as (j' & Hne & Hj').
  { destruct (decide (j < i)%nat).
    - exists j. split; [lia|]. by rewrite list_lookup_delete_lt in Hj.
    - exists (S j). split; [lia|]. by rewrite list_lookup_delete_ge in Hj by lia. }
  apply Hne. eapply (NoDup_lookup _ _ _ oid Hnodup).
  - rewrite list_lookup_fmap, Hj'. cbn. by f_equal.
  - rewrite list_lookup_fmap, Hi. cbn. by f_equal.
Qed.

(** C3: for a well-formed id that matches a stored item, delete removes
    that one document (the collection is one shorter, the others stay in
    place, and where ids are unique none with this id is left) and the
    response is 204 with no body: the handler's [{"ok": True}] is not
    sent. *)
Theorem delete_item_removes (item_id : string) (w : world)
    (oid : ObjectId) (i : nat) (d : document) :
  ObjectId_of_str item_id = Return oid →
  list_find (has_id oid) (item w) = Some (i, d) →
  DELETE_item item_id w =
    (Response 204 None, World (delete i (item w)) (calls w ++ [call_delete_one]))
  ∧ fst (delete_item item_id w) = Return {["ok" := VBool true]}
  ∧ item w !! i = Some d
  ∧ has_id oid d
  ∧ S (length (delete i (item w))) = length (item w)
  ∧ (NoDup (_id <$> item w) → Forall (λ x, ¬ has_id oid x) (delete i (item w))).
Proof.
  intros Hoid Hfind.
  pose proof Hfind as (Hi & Hd & _)%list_find_Some.
  split_and!; [| |done|done| |by apply delete_id_gone with d].
  - unfold DELETE_item, route. by rewrite (delete_item_run _ _ _ Hoid), Hfind.
  - by rewrite (delete_item_run _ _ _ Hoid), Hfind.
  - rewrite length_delete by eauto. apply lookup_lt_Some in Hi. lia.
Qed.

Lemma delete_item_removes_witness :
  DELETE_item "65f0a1b2c3d4e5f601234567" Sample.store2 =
    (Response 204 None, World [Sample.gadget] [call_delete_one])
  ∧ fst (delete_item "65f0a1b2c3d4e5f601234567" Sample.store2) =
      Return {["ok" := VBool true]}
  ∧ item Sample.store2 !! 0%nat = Some Sample.widget
  ∧ has_id Sample.widget_id Sample.widget
  ∧ 2%nat = length (item Sample.store2)
  ∧ (NoDup (_id <$> item Sample.store2) →
     Forall (λ x, ¬ has_id Sample.widget_id x) [Sample.gadget]).
Proof.
  exact (delete_item_removes "65f0a1b2c3d4e5f601234567" Sample.store2
           Sample.widget_id 0 Sample.widget eq_refl eq_refl).
Defined.

(** *** update_item *)

Lemma lookup_set_opt (k k0 : string) (v : option value) (m : gmap string value) :
  set_opt k0 v m !! k =
  match (if String.eqb k k0 then v else None) with
  | Some x => Some x
  | None => m !! k
  end.
Proof.
  unfold set_opt. destruct (String.eqb_spec k k0) as [->|Hne].
  - destruct v; [by rewrite lookup_insert_eq | done].
  - destruct v; [by rewrite lookup_insert_ne | done].
Qed.

Lemma model_dump_lookup (data : ItemUpdate.t) (k : string) :
  ItemUpdate.model_dump_exclude_none data !! k = supplied data k.
Proof.
  unfold ItemUpdate.model_dump_exclude_none, supplied.
  rewrite !lookup_set_opt, lookup_empty.
  repeat match goal with
         | |- context [String.eqb k ?x] =>
             destruct (String.eqb_spec k x) as [->|?];
             [cbn; match goal with |- context [_ <$> ?o] => by destruct o end|]
         end.
  done.
Qed.

Lemma payload_nonempty (data : ItemUpdate.t) (k : string) (v : value) :
  supplied data k = Some v →
  (size (ItemUpdate.model_dump_exclude_none data) =? 0)%nat = false.
Proof.
  intros Hk. apply Nat.eqb_neq. intros Hsize%map_size_empty_iff.
  by rewrite <- model_dump_lookup, Hsize, lookup_empty in Hk.
Qed.

(** The integers of a payload are its [quantity] and its [min_stock]. *)
Lemma ints_fit_spec (data : ItemUpdate.t) :
  ints_fit data ↔
  (∀ z, ItemUpdate.quantity data = Some z → fits_int64 z)
  ∧ (∀ z, ItemUpdate.min_stock data = Some z → fits_int64 z).
Proof.
  unfold ints_fit. split.
  - intros Hfit. split; intros z Hz.
    + apply (Hfit "quantity"). unfold supplied. cbn. by rewrite Hz.
    + apply (Hfit "min_stock"). unfold supplied. cbn. by rewrite Hz.
  - intros [Hq Hm] k z. unfold supplied.
    repeat case_match; try done;
      match goal with |- _ <$> ?o = _ → _ => destruct o; intros [= <-]; eauto end.
Qed.

Lemma payload_encodable (data : ItemUpdate.t) :
  bson_encodable (ItemUpdate.model_dump_exclude_none data) = true ↔ ints_fit data.
Proof.
  rewrite bson_encodable_spec. unfold ints_fit. split.
  - intros Hok k z Hk. apply bson_value_ok_int, (Hok k). by rewrite model_dump_lookup.
  - intros Hfit k v Hk. rewrite model_dump_lookup in Hk.
    destruct v as [| |z| |]; try done. by apply bson_value_ok_int, (Hfit k).
Qed.

Lemma payload_not_encodable (data : ItemUpdate.t) :
  bson_encodable (ItemUpdate.model_dump_exclude_none data) = false ↔ ¬ ints_fit data.
Proof. by rewrite <- payload_encodable, not_true_iff_false. Qed.

Lemma matches_sku_of_other (s : string) (oid : ObjectId) (d : document) :
  matches [Cond (FieldEq "sku" s); Cond (IdNe oid)] d =
  Some (bool_decide (sku_of_other s oid d)).
Proof. apply matches_text_other. Qed.

Lemma set_and_fetch_run (oid : ObjectId) (payload : gmap string value) (w : world) :
  (let* matched_count := update_one [Cond (IdEq oid)] payload in
   if (matched_count =? 0)%nat then raise (HTTPException 404 "Item not found")
   else
     let* doc := find_one [Cond (IdEq oid)] in
     serialize_found doc) w
  = set_and_fetch oid payload w.
Proof.
  unfold bind, set_and_fetch. rewrite (update_one_run _ _ (matches_id oid)).
  destruct (bson_encodable payload); [|done].
  destruct (list_find (has_id oid) (item w)) as [[i d]|] eqn:Hfind; [|done].
  assert (_id d = oid) as -> by (by apply list_find_Some in Hfind as (_ & ? & _)).
  cbn [Nat.eqb]. rewrite (find_one_run _ _ (matches_id oid)). cbn [item calls].
  rewrite (list_find_id_insert _ _ _ _ _ Hfind). cbn.
  by rewrite <- !app_assoc.
Qed.

Lemma update_item_run (item_id : string) (data : ItemUpdate.t) (w : world) :
  update_item item_id data w =
  match ObjectId_of_str item_id with
  | Raise _ => (Raise (HTTPException 400 "Invalid item id"), w)
  | Unmodelled => (Unmodelled, w)
  | Return oid =>
      let payload := ItemUpdate.model_dump_exclude_none data in
      if (size payload =? 0)%nat
      then (Raise (HTTPException 400 "No fields to update"), w)
      else
        match ItemUpdate.sku data with
        | Some s =>
            let w1 := World (item w) (calls w ++ [call_find_one]) in
            match list_find (sku_of_other s oid) (item w) with
            | Some _ =>
                (Raise (HTTPException 400 "SKU already in use by another item"), w1)
            | None => set_and_fetch oid payload w1
            end
        | None => set_and_fetch oid payload w
        end
  end.
Proof.
  unfold update_item. unfold bind at 1. rewrite oid_or_400_run.
  destruct (ObjectId_of_str item_id) as [oid| |]; [|done..].
  cbn zeta. destruct (size _ =? 0)%nat; [done|].
  unfold bind at 1.
  destruct (ItemUpdate.sku data) as [s|].
  - unfold bind at 1. rewrite (find_one_run _ _ (matches_sku_of_other s oid)).
    destruct (list_find (sku_of_other s oid) (item w)) as [[j e]|]; [done|].
    cbn [fmap option_fmap option_map ret]. apply set_and_fetch_run.
  - cbn [ret]. apply set_and_fetch_run.
Qed.

(** C6: with a well-formed id, an update whose payload has no field fails
    with 400 "No fields to update"; the world is returned as it was: no call
    was made on the store and no document changed. *)
Theorem update_item_empty_payload (item_id : string) (w : world) (oid : ObjectId) :
  ObjectId_of_str item_id = Return oid →
  let data := ItemUpdate.Build None None None None None None None None in
  update_item item_id data w = (Raise (HTTPException 400 "No fields to update"), w)
  ∧ PUT_item item_id data w = (ErrorResponse 400 "No fields to update", w).
Proof.
  intros Hoid data.
  assert (update_item item_id data w =
          (Raise (HTTPException 400 "No fields to update"), w)) as Hrun
    by (by rewrite update_item_run, Hoid).
  split; [done|]. unfold PUT_item, route. by rewrite Hrun.
Qed.

Lemma update_item_empty_payload_witness :
  let data := ItemUpdate.Build None None None None None None None None in
  update_item "65f0a1b2c3d4e5f601234567" data Sample.store1 =
    (Raise (HTTPException 400 "No fields to update"), Sample.store1)
  ∧ PUT_item "65f0a1b2c3d4e5f601234567" data Sample.store1 =
    (ErrorResponse 400 "No fields to update", Sample.store1).
Proof.
  exact (update_item_empty_payload "65f0a1b2c3d4e5f601234567" Sample.store1
           Sample.widget_id eq_refl).
Defined.

(** C5: after a successful update the stored document holds, for every
    field, the supplied value when one was supplied and its previous value
    otherwise; the other documents are as before; and a field is null
    afterwards only if it was null before. *)
Theorem update_item_frame (item_id : string) (data : ItemUpdate.t)
    (w w' : world) (body : gmap string value) :
  update_item item_id data w = (Return body, w') →
  ∃ (oid : ObjectId) (i : nat) (d : document),
    ObjectId_of_str item_id = Return oid
    ∧ list_find (has_id oid) (item w) = Some (i, d)
    ∧ let updated := Doc oid (ItemUpdate.model_dump_exclude_none data ∪ fields d) in
      item w' = <[i := updated]> (item w)
      ∧ body = serialize_doc updated
      ∧ (∀ k, fields updated !! k =
              match supplied data k with
              | Some v => Some v
              | None => fields d !! k
              end)
      ∧ (∀ k, supplied data k ≠ Some VNone)
      ∧ (∀ k, fields updated !! k = Some VNone → fields d !! k = Some VNone).
Proof.
  intros Hrun. rewrite update_item_run in Hrun.
  destruct (ObjectId_of_str item_id) as [oid| |]; [|done..].
  cbn zeta in Hrun. destruct (size _ =? 0)%nat; [done|].
  assert (∃ w1, item w1 = item w ∧
                set_and_fetch oid (ItemUpdate.model_dump_exclude_none data) w1 =
                (Return body, w')) as (w1 & Hitems & Hset).
  { destruct (ItemUpdate.sku data) as [s|]; [|by exists w].
    destruct (list_find (sku_of_other s oid) (item w)); [done|].
    by eexists (World _ _). }
  unfold set_and_fetch in Hset. rewrite Hitems in Hset.
  destruct (bson_encodable _); [|done].
  destruct (list_find (has_id oid) (item w)) as [[i d]|] eqn:Hfind; [|done].
  injection Hset as <- <-.
  assert (Hnull : ∀ k, supplied data k ≠ Some VNone).
  { intros k. unfold supplied.
    repeat case_match; try done;
      match goal with |- _ <$> ?o ≠ _ => by destruct o end. }
  exists oid, i, d. do 2 (split; [done|]). intros updated.
  split_and!; try done.
  - intros k. subst updated. cbn [fields]. rewrite lookup_union, model_dump_lookup.
    by destruct (supplied data k), (fields d !! k).
  - intros k. subst updated. cbn [fields]. rewrite lookup_union, model_dump_lookup.
    specialize (Hnull k).
    destruct (supplied data k) as [v|], (fields d !! k); cbn; congruence.
Qed.

Lemma update_item_frame_witness :
  ∃ (oid : ObjectId) (i : nat) (d : document),
    ObjectId_of_str "65f0a1b2c3d4e5f601234567" = Return oid
    ∧ list_find (has_id oid) (item Sample.store1) = Some (i, d)
    ∧ let updated :=
        Doc oid (ItemUpdate.model_dump_exclude_none Sample.restock ∪ fields d) in
      [Sample.restocked] = <[i := updated]> (item Sample.store1)
      ∧ serialize_doc Sample.restocked = serialize_doc updated
      ∧ (∀ k, fields updated !! k =
              match supplied Sample.restock k with
              | Some v => Some v
              | None => fields d !! k
              end)
      ∧ (∀ k, supplied Sample.restock k ≠ Some VNone)
      ∧ (∀ k, fields updated !! k = Some VNone → fields d !! k = Some VNone).
Proof.
  exact (update_item_frame "65f0a1b2c3d4e5f601234567" Sample.restock Sample.store1
           (World [Sample.restocked] [call_update_one; call_find_one])
           (serialize_doc Sample.restocked) eq_refl).
Defined.

(** C7, as the code has it: with a well-formed id, an update that supplies a
    SKU fails with "SKU already in use by another item" exactly when some
    stored item with a different id has that SKU.  An update of an item that
    supplies the SKU the item already has, no other item having it, succeeds
    when the integers it supplies fit in 8 bytes; when one does not, the
    driver raises [OverflowError], nothing is written and the answer is a
    500. *)
Theorem update_item_sku_collision (item_id : string) (data : ItemUpdate.t)
    (w : world) (oid : ObjectId) (s : string) :
  ObjectId_of_str item_id = Return oid →
  ItemUpdate.sku data = Some s →
  (fst (update_item item_id data w) =
     Raise (HTTPException 400 "SKU already in use by another item")
   ↔ ∃ d, d ∈ item w ∧ ¬ has_id oid d ∧ text_field "sku" s d)
  ∧ (∀ (i : nat) (d : document),
       list_find (has_id oid) (item w) = Some (i, d) →
       text_field "sku" s d →
       (∀ e, e ∈ item w → text_field "sku" s e → has_id oid e) →
       let updated := Doc oid (ItemUpdate.model_dump_exclude_none data ∪ fields d) in
       (ints_fit data →
        update_item item_id data w =
          (Return (serialize_doc updated),
           World (<[i := updated]> (item w))
                 (calls w ++ [call_find_one; call_update_one; call_find_one]))
        ∧ serialize_doc updated !! "sku" = Some (VStr s)
        ∧ serialize_doc updated !! "id" = Some (VStr (str_of_ObjectId oid)))
       ∧ (¬ ints_fit data →
          update_item item_id data w =
            (Raise OverflowError,
             World (item w) (calls w ++ [call_find_one; call_update_one]))
          ∧ fst (PUT_item item_id data w) = InternalServerError)).
Proof.
  intros Hoid Hsku.
  assert (supplied data "sku" = Some (VStr s)) as Hsup
    by (unfold supplied; cbn; by rewrite Hsku).
  unfold PUT_item, route.
  rewrite update_item_run, Hoid. cbn zeta.
  rewrite (payload_nonempty _ _ _ Hsup), Hsku.
  destruct (list_find (sku_of_other s oid) (item w)) as [[j e]|] eqn:Hother.
  - apply list_find_Some in Hother as (Hj & [Hs Hne] & _). split.
    + split; [|done]. intros _. exists e.
      split_and!; [by eapply list_elem_of_lookup_2|done..].
    + intros i d _ _ Hown. destruct Hne. apply Hown; [|done].
      by eapply list_elem_of_lookup_2.
  - apply list_find_None in Hother. rewrite Forall_forall in Hother. split.
    + split.
      * unfold set_and_fetch. cbn [item].
        destruct (bson_encodable _); [|done].
        by destruct (list_find (has_id oid) (item w)) as [[i d]|].
      * intros (d & Hd & Hne & Hs). by destruct (Hother d Hd).
    + intros i d Hfind _ _. unfold set_and_fetch. cbn [item calls]. split.
      * intros Hfit%payload_encodable. rewrite Hfit, Hfind.
        split_and!; [by rewrite <- !app_assoc| |apply (serialize_doc_lookup (Doc oid _))].
        rewrite (proj2 (serialize_doc_lookup (Doc oid _))) by done.
        cbn [fields]. rewrite lookup_union, model_dump_lookup, Hsup.
        by destruct (fields d !! "sku").
      * intros Hbig%payload_not_encodable. rewrite Hbig.
        by rewrite <- !app_assoc.
Qed.

Lemma update_item_sku_collision_witness :
  (fst (update_item "65f0a1b2c3d4e5f601234567" Sample.rename Sample.store2) =
     Raise (HTTPException 400 "SKU already in use by another item")
   ↔ ∃ d, d ∈ item Sample.store2 ∧ ¬ has_id Sample.widget_id d
          ∧ text_field "sku" "WID-1" d)
  ∧ update_item "65f0a1b2c3d4e5f601234567" Sample.rename Sample.store2 =
      (Return (serialize_doc Sample.renamed),
       World [Sample.renamed; Sample.gadget]
             [call_find_one; call_update_one; call_find_one])
  ∧ serialize_doc Sample.renamed !! "sku" = Some (VStr "WID-1")
  ∧ serialize_doc Sample.renamed !! "id" = Some (VStr "65f0a1b2c3d4e5f601234567").
Proof.
  destruct (update_item_sku_collision "65f0a1b2c3d4e5f601234567" Sample.rename
              Sample.store2 Sample.widget_id "WID-1" eq_refl eq_refl) as [Hiff Hown].
  split; [exact Hiff|].
  apply (Hown 0%nat Sample.widget); [reflexivity | reflexivity | |].
  - intros e [->|[->|[]%elem_of_nil]%elem_of_cons]%elem_of_cons Hs;
      [reflexivity | discriminate Hs].
  - apply ints_fit_spec. split; intros z [=].
Defined.

(** C7 as the specification states it fails: the widget's update with its
    own SKU and the quantity [2^63] is answered with a 500, and the widget is
    left as it was. *)
Lemma own_sku_claim_fails :
  ¬ own_sku_claim "65f0a1b2c3d4e5f601234567" Sample.big_restock Sample.store1
  ∧ PUT_item "65f0a1b2c3d4e5f601234567" Sample.big_restock Sample.store1
    = (InternalServerError, World [Sample.widget] [call_find_one; call_update_one])
  ∧ text_field "sku" "WID-1" Sample.widget
  ∧ ItemUpdate_valid Sample.big_restock = true.
Proof.
  split_and!; [|reflexivity..].
  intros Hclaim.
  destruct (Hclaim Sample.widget_id 0%nat Sample.widget "WID-1"
              eq_refl eq_refl eq_refl eq_refl) as (body & w' & Hrun).
  - by intros e ->%list_elem_of_singleton.
  - vm_compute in Hrun. discriminate Hrun.
Qed.

(** Under SKU uniqueness the premise of the second part holds: an item's SKU
    is on no item with another id. *)
Lemma sku_unique_own (l : list document) (oid : ObjectId) (d : document) (s : string) :
  sku_unique l → d ∈ l → has_id oid d → text_field "sku" s d →
  ∀ e, e ∈ l → text_field "sku" s e → has_id oid e.
Proof.
  intros Huniq Hd Hid Hs e He Hes. specialize (Huniq s). unfold count_sku in Huniq.
  assert (d ∈ filter (text_field "sku" s) l) as Hd' by (by apply list_elem_of_filter).
  assert (e ∈ filter (text_field "sku" s) l) as He' by (by apply list_elem_of_filter).
  destruct (filter (text_field "sku" s) l) as [|x [|y k]]; cbn in Huniq; [| |lia].
  - by apply elem_of_nil in Hd'.
  - apply list_elem_of_singleton in Hd', He'. by subst.
Qed.

(** Re-supplying its own SKU, on the sample store. *)
Example update_own_sku :
  update_item "65f0a1b2c3d4e5f601234567" Sample.rename Sample.store2 =
    (Return (serialize_doc Sample.renamed),
     World [Sample.renamed; Sample.gadget]
           [call_find_one; call_update_one; call_find_one]).
Proof. reflexivity. Qed.

(** *** Malformed and unknown identifiers *)


Lemma length_chars (s : string) : length (chars s) = String.length s.
Proof. induction s as [|c s IH]; [done|]. cbn. by rewrite <- IH. Qed.

Lemma hex_digit_not_space (c : ascii) : is_hex_digit c = true → is_space c = false.
Proof. destruct c as [[] [] [] [] [] [] [] []]; cbn; intros; done. Qed.

(** [fromhex] reads an even number of hexadecimal digits as they are, in
    lower case. *)
Lemma fromhex_digits (n : nat) (l : list ascii) :
  length l = (2 * n)%nat →
  forallb is_hex_digit l = true →
  fromhex l = Some (map lower l).
Proof.
  revert l. induction n as [|n IH]; intros l Hlen Hall.
  - by destruct l.
  - destruct l as [|c [|b l]]; cbn in Hlen; try lia.
    cbn [forallb] in Hall.
    apply andb_true_iff in Hall as [Hc [Hb Hl]%andb_true_iff].
    cbn [fromhex]. rewrite (hex_digit_not_space c Hc), Hc, Hb. cbn [andb].
    by rewrite IH by (done || lia).
Qed.





(** A well-formed id that matches nothing, on the sample store. *)
Example delete_unknown_id :
  DELETE_item "65f0a1b2c3d4e5f601234569" Sample.store1 =
    (ErrorResponse 404 "Item not found",
     World [Sample.widget] [call_delete_one])
  ∧ DELETE_item "widget-1" Sample.store1 =
    (ErrorResponse 400 "Invalid item id", Sample.store1).
Proof. split; reflexivity. Qed.

(** Path ids of 24 characters with white space in them.  A space that
    leaves an odd number of digits, or that stands inside a pair, is refused;
    24 characters that are not hexadecimal are refused with or without a
    space; two spaces at the end leave eleven bytes, an identifier that no
    stored document has. *)
Example path_id_white_space :
  DELETE_item "65f0a1b2c3d4e5f60123456 " Sample.store1 =
    (ErrorResponse 400 "Invalid item id", Sample.store1)
  ∧ DELETE_item "6 5f0a1b2c3d4e5f60123456" Sample.store1 =
    (ErrorResponse 400 "Invalid item id", Sample.store1)
  ∧ DELETE_item "zzzzzzzzzzzzzzzzzzzzzzz " Sample.store1 =
    (ErrorResponse 400 "Invalid item id", Sample.store1)
  ∧ ObjectId_of_str "65f0a1b2c3d4e5f6012345  " = Return (mkObjectId "65f0a1b2c3d4e5f6012345")
  ∧ DELETE_item "65f0a1b2c3d4e5f6012345  " Sample.store1 =
    (ErrorResponse 404 "Item not found", World [Sample.widget] [call_delete_one])
  ∧ PUT_item "65f0a1b2c3d4e5f6012345  " Sample.restock Sample.store1 =
    (ErrorResponse 404 "Item not found", World [Sample.widget] [call_update_one])
  ∧ POST_item_adjust "65f0a1b2c3d4e5f6012345  " {| delta := 1 |} Sample.store1 =
    (ErrorResponse 404 "Item not found", World [Sample.widget] [call_find_one]).
Proof. split_and!; reflexivity. Qed.

(** An update of an unknown id whose body holds [2^63]: the driver refuses
    the body before the store is asked, so the answer is a 500, not a 404. *)
Example update_unknown_id_overflow :
  PUT_item "65f0a1b2c3d4e5f601234569"
    (ItemUpdate.Build None None None None (Some Sample.too_big) None None None)
    Sample.store1 =
    (InternalServerError, World [Sample.widget] [call_update_one]).
Proof. reflexivity. Qed.

(** *** inventory_stats *)

Lemma py_sum_map (f : document → result Z) (g : document → Z) (l : list document) :
  Forall (λ d, f d = Return (g d)) l →
  py_sum (map f l) = Return (foldr (λ d acc, g d + acc) 0 l).
Proof.
  induction 1 as [|d l Hd _ IH]; [done|].
  cbn. by rewrite Hd, IH.
Qed.

(** A sum of ones counts. *)
Lemma sum_indicator (P : document → Prop) `{!∀ d, Decision (P d)} (l : list document) :
  foldr (λ d acc, (if bool_decide (P d) then 1 else 0) + acc) 0 l
  = Z.of_nat (length (filter P l)).
Proof.
  induction l as [|d l IH]; [done|].
  cbn [foldr]. rewrite IH, filter_cons.
  case_bool_decide.
  - rewrite decide_True by done. cbn [length]. lia.
  - rewrite decide_False by done. lia.
Qed.

Lemma units_of_int (d : document) :
  int_or_absent "quantity" d → units_of d = Return (quantity_of d).
Proof.
  unfold units_of, quantity_of, int_of_field, dict_get, int_field.
  by intros [-> | [z ->]].
Qed.

Lemma low_of_int (d : document) :
  int_or_null "min_stock" d → int_or_null "quantity" d →
  low_of d = Return (if bool_decide (quantity_of d < min_stock_of d) then 1 else 0).
Proof.
  assert (∀ k, int_or_null k d →
               py_int (py_or (dict_get (fields d) k (VInt 0)) (VInt 0))
               = Return (int_of_field k d)) as Hread.
  { intros k Hk. unfold int_of_field, dict_get, py_or.
    destruct Hk as [H | [H | [z H]]]; unfold int_field in *; rewrite !H; [done..|].
    unfold truthy. by destruct (Z.eqb_spec z 0) as [->|]. }
  intros Hmin Hqty. unfold low_of, quantity_of, min_stock_of.
  rewrite (Hread _ Hmin), (Hread _ Hqty). cbn. f_equal.
  destruct (Z.gtb_spec (int_of_field "min_stock" d) (int_of_field "quantity" d));
    [rewrite bool_decide_eq_true_2 | rewrite bool_decide_eq_false_2]; done || lia.
Qed.

Lemma filter_True (l : list document) : filter (λ _, True) l = l.
Proof. induction l as [|d l IH]; [done|]. rewrite filter_cons. cbn. by rewrite IH. Qed.

Lemma inventory_stats_run (w : world) :
  Forall (int_or_absent "quantity") (item w) →
  Forall (int_or_null "min_stock") (item w) →
  inventory_stats w =
  (Return (stats_body (Z.of_nat (length (item w)))
                      (total_quantity (item w))
                      (low_stock_count (item w))),
   World (item w) (calls w ++ [call_find])).
Proof.
  intros Hqty Hmin. unfold inventory_stats, bind.
  rewrite (find_run _ _ matches_all).
  rewrite filter_True. unfold lift.
  rewrite (py_sum_map units_of quantity_of).
  2: { eapply Forall_impl; [exact Hqty|]. apply units_of_int. }
  rewrite (py_sum_map low_of
             (λ d, if bool_decide (quantity_of d < min_stock_of d) then 1 else 0)).
  2: { apply Forall_forall. intros d Hd. rewrite Forall_forall in Hqty, Hmin.
       apply low_of_int; [by apply Hmin|].
       destruct (Hqty d Hd) as [?|?]; [by left | by right; right]. }
  by rewrite sum_indicator.
Qed.

Lemma is_item_readable (l : list document) :
  Forall is_item l →
  Forall (int_or_absent "quantity") l ∧ Forall (int_or_null "min_stock") l.
Proof.
  intros Hitems. split; (eapply Forall_impl; [exact Hitems|]); intros d [Hq Hm].
  - by right.
  - by right; right.
Qed.

(** C4: over a collection of items (integer [quantity] and [min_stock]),
    stats returns exactly the three integers [total_skus], the number of
    items, [total_units], the sum of their quantities, and [low_stock], the
    number of items whose [min_stock] is strictly greater than their
    [quantity]; on the empty collection all three are 0.  The collection is
    read once and not changed. *)
Theorem inventory_stats_totals (w : world) :
  Forall is_item (item w) →
  inventory_stats w =
    (Return (stats_body (Z.of_nat (length (item w)))
                        (total_quantity (item w))
                        (low_stock_count (item w))),
     World (item w) (calls w ++ [call_find]))
  ∧ (∀ a b c : Z,
       dom (stats_body a b c) = {["total_skus"; "total_units"; "low_stock"]}
       ∧ stats_body a b c !! "total_skus" = Some (VInt a)
       ∧ stats_body a b c !! "total_units" = Some (VInt b)
       ∧ stats_body a b c !! "low_stock" = Some (VInt c))
  ∧ (item w = [] → fst (inventory_stats w) = Return (stats_body 0 0 0)).
Proof.
  intros [Hqty Hmin]%is_item_readable.
  pose proof (inventory_stats_run w Hqty Hmin) as Hrun.
  split_and!; [done| |by rewrite Hrun; intros ->].
  intros a b c. unfold stats_body. split_and!; [|done..].
  rewrite !dom_insert_L, dom_empty_L. set_solver.
Qed.

Lemma inventory_stats_totals_witness :
  inventory_stats (World [Sample.gadget] []) =
    (Return (stats_body 1 5 1), World [Sample.gadget] [call_find])
  ∧ (∀ a b c : Z,
       dom (stats_body a b c) = {["total_skus"; "total_units"; "low_stock"]}
       ∧ stats_body a b c !! "total_skus" = Some (VInt a)
       ∧ stats_body a b c !! "total_units" = Some (VInt b)
       ∧ stats_body a b c !! "low_stock" = Some (VInt c))
  ∧ (item (World [Sample.gadget] []) = [] →
     fst (inventory_stats (World [Sample.gadget] [])) = Return (stats_body 0 0 0)).
Proof.
  apply (inventory_stats_totals (World [Sample.gadget] [])).
  repeat constructor; eexists; reflexivity.
Defined.

(** The empty collection. *)
Example inventory_stats_empty :
  inventory_stats Sample.empty_store =
    (Return (stats_body 0 0 0), World [] [call_find]).
Proof. reflexivity. Qed.

(** *** Absent and null fields *)

(** A document without [quantity] counts as holding 0: adjust-stock writes
    [max(0, delta)], a number that fits in 8 bytes. *)
Lemma adjust_stock_absent_quantity (item_id : string) (body : AdjustStock) (w : world)
    (oid : ObjectId) (i : nat) (d : document) :
  ObjectId_of_str item_id = Return oid →
  list_find (has_id oid) (item w) = Some (i, d) →
  fields d !! "quantity" = None →
  Z.max 0 (delta body) ≤ int64_max →
  let updated := Doc oid (<["quantity" := VInt (Z.max 0 (delta body))]> (fields d)) in
  adjust_stock item_id body w =
    (Return (serialize_doc updated),
     World (<[i := updated]> (item w))
           (calls w ++ [call_find_one; call_update_one; call_find_one])).
Proof.
  intros Hoid Hfind Hq Hfit. rewrite adjust_stock_cases, Hoid. cbn zeta. rewrite Hfind.
  unfold dict_get. rewrite Hq. cbn [py_int Z.add].
  by rewrite bson_value_ok_quantity by (done || lia).
Qed.

(** A [quantity] stored as null makes adjust-stock raise [TypeError] after
    the first fetch; nothing is written. *)
Lemma adjust_stock_null_quantity (item_id : string) (body : AdjustStock) (w : world)
    (oid : ObjectId) (i : nat) (d : document) :
  ObjectId_of_str item_id = Return oid →
  list_find (has_id oid) (item w) = Some (i, d) →
  fields d !! "quantity" = Some VNone →
  adjust_stock item_id body w =
    (Raise TypeError, World (item w) (calls w ++ [call_find_one])).
Proof.
  intros Hoid Hfind Hq. rewrite adjust_stock_cases, Hoid. cbn zeta. rewrite Hfind.
  unfold dict_get. by rewrite Hq.
Qed.

(** Stats with absent fields: an absent [quantity] counts 0 units, an absent
    or null [min_stock] counts as 0. *)
Lemma inventory_stats_absent_fields (w : world) :
  Forall (int_or_absent "quantity") (item w) →
  Forall (int_or_null "min_stock") (item w) →
  fst (inventory_stats w) =
    Return (stats_body (Z.of_nat (length (item w)))
                       (total_quantity (item w))
                       (low_stock_count (item w))).
Proof. intros Hqty Hmin. by rewrite inventory_stats_run. Qed.

(** A null [quantity] anywhere in the collection makes stats raise
    [TypeError], in [total_units]. *)
Lemma inventory_stats_null_quantity (w : world) (d : document) :
  d ∈ item w →
  fields d !! "quantity" = Some VNone →
  Forall (int_or_null "quantity") (item w) →
  fst (inventory_stats w) = Raise TypeError.
Proof.
  intros Hd Hnull Hall. unfold inventory_stats, bind.
  rewrite (find_run _ _ matches_all), filter_True. unfold lift.
  assert (py_sum (map units_of (item w)) = Raise TypeError) as ->; [|done].
  induction Hall as [|x l Hx _ IH]; [by apply elem_of_nil in Hd|].
  cbn [map py_sum]. apply elem_of_cons in Hd as [<-|Hd].
  - unfold units_of, dict_get. by rewrite Hnull.
  - rewrite (IH Hd). unfold units_of, dict_get.
    destruct Hx as [H | [H | [z H]]]; unfold int_field in *; by rewrite H.
Qed.

(** C10: on a document whose [quantity] is stored as null, adjust-stock
    raises [TypeError] and writes nothing, and stats raises [TypeError];
    neither treats the null as 0. *)
Theorem null_quantity_raises :
  adjust_stock "65f0a1b2c3d4e5f601234567" {| delta := 4 |} Sample.null_store =
    (Raise TypeError, World [Sample.null_quantity] [call_find_one])
  ∧ inventory_stats Sample.null_store =
    (Raise TypeError, World [Sample.null_quantity] [call_find])
  ∧ POST_item_adjust "65f0a1b2c3d4e5f601234567" {| delta := 4 |} Sample.null_store =
    (InternalServerError, World [Sample.null_quantity] [call_find_one])
  ∧ low_of Sample.null_quantity = Return 1.
Proof. split_and!; reflexivity. Qed.

(** *** create_item *)

Lemma lower_hex_digit (c : ascii) :
  is_digit c || in_range 97 102 c = true →
  is_hex_digit c = true ∧ lower c = c.
Proof. destruct c as [[] [] [] [] [] [] [] []]; cbn; intros; done. Qed.

(** The string form of a generated identifier parses back to it. *)
Lemma ObjectId_roundtrip (oid : ObjectId) :
  valid_ObjectId oid = true →
  ObjectId_of_str (str_of_ObjectId oid) = Return oid.
Proof.
  destruct oid as [h]. unfold valid_ObjectId, ObjectId_of_str, str_of_ObjectId.
  cbn [hex]. intros [Hlen Hall]%andb_true_iff. rewrite Hlen.
  apply Nat.eqb_eq in Hlen.
  assert (forallb is_hex_digit (chars h) = true ∧ map lower (chars h) = chars h)
    as [Hhex Hlower].
  { clear Hlen. induction (chars h) as [|c l IH]; [done|].
    cbn in Hall. apply andb_true_iff in Hall as [Hc Hl].
    destruct (lower_hex_digit c Hc) as [Hhex Hlow], (IH Hl) as [IH1 IH2].
    cbn. by rewrite Hhex, Hlow, IH1, IH2. }
  rewrite (fromhex_digits 12) by (done || by rewrite length_chars, Hlen).
  rewrite Hlower. unfold chars. by rewrite string_of_list_ascii_of_string.
Qed.

Lemma insert_one_run (new_id : ObjectId) (doc : gmap string value) (w : world) :
  (∀ d, d ∈ item w → ¬ has_id new_id d) →
  insert_one new_id doc w =
    if bson_encodable doc then
      (Return new_id, World (item w ++ [Doc new_id doc]) (calls w ++ [call_insert_one]))
    else (Raise OverflowError, World (item w) (calls w ++ [call_insert_one])).
Proof.
  intros Hfresh. unfold insert_one, bind, log, get_items, raise. cbn.
  destruct (bson_encodable doc); [|done]. cbn.
  match goal with
  | |- context [existsb ?f ?l] => assert (existsb f l = false) as ->; [|done]
  end.
  apply not_true_is_false. intros (d & Hd%list_elem_of_In & Heq)%existsb_exists.
  apply bool_decide_eq_true_1 in Heq. by apply (Hfresh d).
Qed.

(** The integers of an item are its [quantity] and its [min_stock]. *)
Lemma item_encodable (data : Item.t) :
  bson_encodable (Item.model_dump data) = true
  ↔ fits_int64 (Item.quantity data) ∧ fits_int64 (Item.min_stock data).
Proof.
  rewrite bson_encodable_spec, <- !bson_value_ok_int. unfold Item.model_dump. split.
  - intros Hok. split; [apply (Hok "quantity") | apply (Hok "min_stock")]; done.
  - intros [Hq Hm] k v Hk.
    repeat (apply lookup_insert_Some in Hk as [[<- <-]|[_ Hk]];
            [done || by destruct (Item.category data), (Item.location data)|]).
    done.
Qed.

Lemma create_item_conflict (new_id : ObjectId) (data : Item.t) (w : world) (d : document) :
  d ∈ item w → text_field "sku" (Item.sku data) d →
  create_item new_id data w =
    (Raise (HTTPException 400 "SKU already exists"),
     World (item w) (calls w ++ [call_find_one])).
Proof.
  intros Hd Hsku. unfold create_item, bind.
  rewrite (find_one_run _ _ (matches_text "sku" (Item.sku data))).
  by destruct (list_find_elem_of (text_field "sku" (Item.sku data)) _ _ Hd Hsku)
    as [[j e] ->].
Qed.

Lemma create_item_inserts (new_id : ObjectId) (data : Item.t) (w : world) :
  (∀ d, d ∈ item w → ¬ text_field "sku" (Item.sku data) d) →
  valid_ObjectId new_id = true →
  (∀ d, d ∈ item w → ¬ has_id new_id d) →
  create_item new_id data w =
    if bson_encodable (Item.model_dump data) then
      (Return (serialize_doc (Doc new_id (Item.model_dump data))),
       World (item w ++ [Doc new_id (Item.model_dump data)])
             (calls w ++ [call_find_one; call_insert_one; call_find_one]))
    else
      (Raise OverflowError,
       World (item w) (calls w ++ [call_find_one; call_insert_one])).
Proof.
  intros Hsku Hvalid Hfresh. unfold create_item, bind.
  rewrite (find_one_run _ _ (matches_text "sku" (Item.sku data))).
  rewrite (proj2 (list_find_None _ _)) by (by apply Forall_forall).
  cbn [fmap option_fmap option_map]. unfold create_document, bind.
  rewrite insert_one_run by done.
  destruct (bson_encodable _); [|cbn [item calls]; by rewrite <- !app_assoc].
  unfold ret, lift.
  rewrite (ObjectId_roundtrip _ Hvalid).
  rewrite (find_one_run _ _ (matches_id new_id)). cbn [item calls].
  rewrite list_find_app_r by (by apply list_find_None, Forall_forall).
  cbn. rewrite decide_True by done. cbn.
  by rewrite <- !app_assoc.
Qed.

Lemma count_sku_elem_of (s : string) (l : list document) (d : document) :
  d ∈ l → text_field "sku" s d → (1 ≤ count_sku s l)%nat.
Proof.
  intros Hd Hs. unfold count_sku.
  assert (d ∈ filter (text_field "sku" s) l) as Hin by (by apply list_elem_of_filter).
  destruct (filter _ l); [by apply elem_of_nil in Hin | cbn; lia].
Qed.

Lemma count_sku_none (s : string) (l : list document) :
  (∀ d, d ∈ l → ¬ text_field "sku" s d) → count_sku s l = 0%nat.
Proof.
  intros Hnone. unfold count_sku.
  destruct (filter _ l) as [|d l'] eqn:Hf; [done|].
  assert (d ∈ filter (text_field "sku" s) l) as [? ?]%list_elem_of_filter
    by (rewrite Hf; left).
  by destruct (Hnone d).
Qed.

Lemma count_sku_snoc (s : string) (l : list document) (d : document) :
  count_sku s (l ++ [d]) =
  (count_sku s l + if bool_decide (text_field "sku" s d) then 1 else 0)%nat.
Proof.
  unfold count_sku. rewrite filter_app, length_app, filter_cons, filter_nil.
  case_bool_decide; [rewrite decide_True by done | rewrite decide_False by done]; done.
Qed.

Lemma model_dump_sku (data : Item.t) (new_id : ObjectId) (s : string) :
  text_field "sku" s (Doc new_id (Item.model_dump data)) ↔ s = Item.sku data.
Proof.
  unfold text_field, Item.model_dump. cbn [fields].
  rewrite lookup_insert_ne, lookup_insert_eq by done. naive_solver.
Qed.

(** The fields of a dumped item, by key. *)
Lemma model_dump_fields (data : Item.t) :
  Item.model_dump data !! "name" = Some (VStr (Item.name data))
  ∧ Item.model_dump data !! "sku" = Some (VStr (Item.sku data))
  ∧ Item.model_dump data !! "category" = Some (Item.opt_text (Item.category data))
  ∧ Item.model_dump data !! "location" = Some (Item.opt_text (Item.location data))
  ∧ Item.model_dump data !! "quantity" = Some (VInt (Item.quantity data))
  ∧ Item.model_dump data !! "min_stock" = Some (VInt (Item.min_stock data))
  ∧ Item.model_dump data !! "cost" = Some (VFloat (Item.cost data))
  ∧ Item.model_dump data !! "price" = Some (VFloat (Item.price data)).
Proof. by split_and!. Qed.

(** C2, as the code has it: a create request whose SKU is on a stored item
    gets 400 "SKU already exists" and nothing is inserted, so under SKU
    uniqueness exactly one item has that SKU afterwards.  Otherwise, when the
    item's integers fit in 8 bytes, the item is inserted under the identifier
    the driver generated and returned with status 201: the body holds that
    identifier under ["id"] and the fields of the request, and SKU uniqueness
    is kept.  When an integer does not fit, the driver raises
    [OverflowError]: nothing is inserted and the answer is a 500. *)
Theorem create_item_unique_sku (new_id : ObjectId) (data : Item.t) (w : world) :
  let s := Item.sku data in
  let doc := Doc new_id (Item.model_dump data) in
  let body := serialize_doc doc in
  ((∃ d, d ∈ item w ∧ text_field "sku" s d) →
   POST_items new_id data w =
     (ErrorResponse 400 "SKU already exists",
      World (item w) (calls w ++ [call_find_one]))
   ∧ (sku_unique (item w) →
      count_sku s (item (snd (POST_items new_id data w))) = 1%nat))
  ∧ ((∀ d, d ∈ item w → ¬ text_field "sku" s d) →
     valid_ObjectId new_id = true →
     (∀ d, d ∈ item w → ¬ has_id new_id d) →
     (fits_int64 (Item.quantity data) ∧ fits_int64 (Item.min_stock data) →
      POST_items new_id data w =
        (Response 201 (Some body),
         World (item w ++ [doc])
               (calls w ++ [call_find_one; call_insert_one; call_find_one]))
      ∧ body !! "id" = Some (VStr (str_of_ObjectId new_id))
      ∧ (∀ k, k ≠ "id" → body !! k = Item.model_dump data !! k)
      ∧ body !! "sku" = Some (VStr s)
      ∧ body !! "name" = Some (VStr (Item.name data))
      ∧ body !! "quantity" = Some (VInt (Item.quantity data))
      ∧ body !! "min_stock" = Some (VInt (Item.min_stock data))
      ∧ count_sku s (item w ++ [doc]) = 1%nat
      ∧ (sku_unique (item w) → sku_unique (item w ++ [doc])))
     ∧ (¬ (fits_int64 (Item.quantity data) ∧ fits_int64 (Item.min_stock data)) →
        POST_items new_id data w =
          (InternalServerError,
           World (item w) (calls w ++ [call_find_one; call_insert_one])))).
Proof.
  intros s doc body. split.
  - intros (d & Hd & Hs).
    assert (POST_items new_id data w =
            (ErrorResponse 400 "SKU already exists",
             World (item w) (calls w ++ [call_find_one]))) as Hrun.
    { unfold POST_items, route. by rewrite (create_item_conflict _ _ _ d). }
    split; [done|]. rewrite Hrun. cbn [snd item]. intros Huniq.
    pose proof (count_sku_elem_of s _ d Hd Hs). specialize (Huniq s). lia.
  - intros Hnone Hvalid Hfresh. unfold POST_items, route.
    rewrite create_item_inserts by done. split.
    + intros Hfit%item_encodable. rewrite Hfit.
      destruct (serialize_doc_lookup doc) as [Hid Hother].
      destruct (model_dump_fields data) as (Hn & Hs & _ & _ & Hq & Hm & _).
      split_and!.
      * reflexivity.
      * exact Hid.
      * exact Hother.
      * subst body. rewrite Hother by discriminate. exact Hs.
      * subst body. rewrite Hother by discriminate. exact Hn.
      * subst body. rewrite Hother by discriminate. exact Hq.
      * subst body. rewrite Hother by discriminate. exact Hm.
      * rewrite count_sku_snoc, (count_sku_none s) by done.
        rewrite bool_decide_eq_true_2; [done|]. by apply model_dump_sku.
      * intros Huniq t. rewrite count_sku_snoc.
        case_bool_decide as Ht; [|by rewrite Nat.add_0_r].
        apply model_dump_sku in Ht as ->. fold s. by rewrite (count_sku_none s).
    + rewrite <- item_encodable. intros Hbig%not_true_is_false. by rewrite Hbig.
Qed.

Lemma create_item_unique_sku_witness :
  (POST_items Sample.fresh_id Sample.widget_item Sample.store1 =
     (ErrorResponse 400 "SKU already exists", World [Sample.widget] [call_find_one])
   ∧ (sku_unique (item Sample.store1) →
      count_sku "WID-1"
        (item (snd (POST_items Sample.fresh_id Sample.widget_item Sample.store1))) = 1%nat))
  ∧ (POST_items Sample.gadget_id Sample.gadget_item Sample.store1 =
       (Response 201 (Some (serialize_doc Sample.gadget)),
        World [Sample.widget; Sample.gadget]
              [call_find_one; call_insert_one; call_find_one])
     ∧ serialize_doc Sample.gadget !! "id" = Some (VStr "65f0a1b2c3d4e5f601234568")
     ∧ (∀ k, k ≠ "id" →
             serialize_doc Sample.gadget !! k = Item.model_dump Sample.gadget_item !! k)
     ∧ serialize_doc Sample.gadget !! "sku" = Some (VStr "GAD-7")
     ∧ serialize_doc Sample.gadget !! "name" = Some (VStr "Gadget")
     ∧ serialize_doc Sample.gadget !! "quantity" = Some (VInt 5)
     ∧ serialize_doc Sample.gadget !! "min_stock" = Some (VInt 10)
     ∧ count_sku "GAD-7" [Sample.widget; Sample.gadget] = 1%nat
     ∧ (sku_unique (item Sample.store1) → sku_unique [Sample.widget; Sample.gadget])).
Proof.
  split.
  - apply (proj1 (create_item_unique_sku Sample.fresh_id Sample.widget_item Sample.store1)).
    exists Sample.widget. split; [left | reflexivity].
  - apply (proj2 (create_item_unique_sku Sample.gadget_id Sample.gadget_item Sample.store1)).
    + intros d ->%list_elem_of_singleton. discriminate.
    + reflexivity.
    + intros d ->%list_elem_of_singleton. discriminate.
    + unfold fits_int64, int64_min, int64_max. cbn. lia.
Defined.

(** C2 as the specification states it fails: the gadget with quantity
    [2^63], whose SKU no stored item has, is not inserted; the answer is a
    500. *)
Lemma create_item_claim_fails :
  ¬ create_item_claim Sample.gadget_id Sample.big_gadget_item Sample.store1
  ∧ POST_items Sample.gadget_id Sample.big_gadget_item Sample.store1
    = (InternalServerError, World [Sample.widget] [call_find_one; call_insert_one])
  ∧ valid_ObjectId Sample.gadget_id = true.
Proof.
  split_and!; [|reflexivity..].
  intros Hclaim. destruct Hclaim as (body & w' & Hrun & _).
  - intros d ->%list_elem_of_singleton. discriminate.
  - vm_compute in Hrun. discriminate Hrun.
Qed.

(** *** list_items *)






Lemma is_prefix_spec (p s : list ascii) :
  is_prefix p s = true ↔ ∃ suf, s = (p ++ suf)%list.
Proof.
  revert s. induction p as [|a p IH]; intros s.
  - cbn. split; [by exists s | done].
  - destruct s as [|c s]; cbn.
    + split; [done | by intros [suf ?]].
    + rewrite andb_true_iff, IH. split.
      * intros [->%Ascii.eqb_eq [suf ->]]. by exists suf.
      * intros [suf [= -> ->]]. split; [apply Ascii.eqb_refl | by exists suf].
Qed.

Lemma is_infix_spec (p s : list ascii) :
  is_infix p s = true ↔ ∃ pre suf, s = (pre ++ p ++ suf)%list.
Proof.
  induction s as [|c s IH]; cbn [is_infix]; rewrite orb_true_iff, is_prefix_spec.
  - split.
    + intros [[suf ->] | ?]; [|done]. by exists [], suf.
    + intros (pre & suf & Heq). left. exists suf.
      destruct pre; [done | discriminate].
  - rewrite IH. split.
    + intros [[suf ->] | (pre & suf & ->)]; [by exists [], suf | by exists (c :: pre), suf].
    + intros ([|x pre] & suf & Heq).
      * left. by exists suf.
      * right. injection Heq as -> ->. by exists pre, suf.
Qed.

Lemma contains_ci_spec (q s : string) :
  contains_ci q s = true ↔ substring_ci q s.
Proof. apply is_infix_spec. Qed.

Lemma search_hit_b_spec (q : string) (d : document) :
  search_hit_b q d = true ↔ search_hit q d.
Proof.
  unfold search_hit_b, search_hit, text_of, text_field.
  rewrite orb_true_iff. split.
  - intros [Hn | Hs].
    + destruct (fields d !! "name") as [[| | | |t]|]; try done.
      exists t. split; [by left | by apply contains_ci_spec].
    + destruct (fields d !! "sku") as [[| | | |t]|]; try done.
      exists t. split; [by right | by apply contains_ci_spec].
  - intros (t & [-> | ->] & Hsub%contains_ci_spec); [by left | by right].
Qed.











(** The two listings, and what the stated filters would keep. *)
Example list_items_dot :
  fst (list_items (Some ".") None Sample.store1) = Return [serialize_doc Sample.widget]
  ∧ ¬ search_hit "." Sample.widget.
Proof.
  split; [reflexivity|]. intros H%search_hit_b_spec. discriminate H.
Qed.

Example list_items_empty_category :
  fst (list_items (Some "wid") (Some "") Sample.store1) = Return [serialize_doc Sample.widget]
  ∧ text_field "category" "tools" Sample.widget.
Proof. split; reflexivity. Qed.

(** A search text with an operator outside the modelled fragment. *)
Example list_items_star :
  fst (list_items (Some "wid*") None Sample.store1) = Unmodelled.
Proof. reflexivity. Qed.

(** A name outside ASCII does not stand in the way of a literal search. *)
Example list_items_cafe :
  fst (list_items (Some "wid") None Sample.store3)
  = Return [serialize_doc Sample.widget; serialize_doc Sample.cafe]
  ∧ fst (list_items (Some "caf") (Some "tools") Sample.store3)
    = Return [serialize_doc Sample.cafe].
Proof. split; reflexivity. Qed.

(** * Further properties of the handlers *)

(** ** Identifiers *)

(** Where identifiers are not repeated, the document at [i] is the one
    [find_one] answers for its identifier. *)
Lemma list_find_id_NoDup (l : list document) (i : nat) (d : document) :
  l !! i = Some d → NoDup (_id <$> l) →
  list_find (has_id (_id d)) l = Some (i, d).
Proof.
  intros Hi Hnodup. apply list_find_Some. split_and!; [done..|].
  intros j y Hj Hlt Hy. unfold has_id in Hy.
  assert (j = i); [|lia].
  eapply (NoDup_lookup _ _ _ (_id d) Hnodup).
  - by rewrite list_lookup_fmap, Hj, <- Hy.
  - by rewrite list_lookup_fmap, Hi.
Qed.

Lemma delete_item_cases (item_id : string) (w : world) :
  delete_item item_id w =
  match ObjectId_of_str item_id with
  | Raise _ => (Raise (HTTPException 400 "Invalid item id"), w)
  | Unmodelled => (Unmodelled, w)
  | Return oid =>
      match list_find (has_id oid) (item w) with
      | Some (i, _) =>
          (Return {["ok" := VBool true]},
           World (delete i (item w)) (calls w ++ [call_delete_one]))
      | None =>
          (Raise (HTTPException 404 "Item not found"),
           World (item w) (calls w ++ [call_delete_one]))
      end
  end.
Proof.
  destruct (ObjectId_of_str item_id) as [oid| |] eqn:Hoid.
  - by apply delete_item_run.
  - unfold delete_item, bind. by rewrite oid_or_400_run, Hoid.
  - unfold delete_item, bind. by rewrite oid_or_400_run, Hoid.
Qed.

(** X1: the [id] that [serialize_doc] gives a client is a string the path
    handlers parse back to the document's identifier; used in a delete
    request it removes exactly that document. *)
Theorem serialized_id_addresses (w : world) (i : nat) (d : document) :
  item w !! i = Some d →
  valid_ObjectId (_id d) = true →
  NoDup (_id <$> item w) →
  ∃ s, serialize_doc d !! "id" = Some (VStr s)
       ∧ oid_or_400 s w = (Return (_id d), w)
       ∧ delete_item s w =
           (Return {["ok" := VBool true]},
            World (delete i (item w)) (calls w ++ [call_delete_one])).
Proof.
  intros Hi Hvalid Hnodup. exists (str_of_ObjectId (_id d)). split_and!.
  - unfold serialize_doc. apply lookup_insert_eq.
  - by rewrite oid_or_400_run, ObjectId_roundtrip.
  - by rewrite delete_item_cases, ObjectId_roundtrip, (list_find_id_NoDup _ i d).
Qed.

Lemma serialized_id_addresses_witness :
  ∃ s, serialize_doc Sample.gadget !! "id" = Some (VStr s)
       ∧ oid_or_400 s Sample.store2 = (Return Sample.gadget_id, Sample.store2)
       ∧ delete_item s Sample.store2 =
           (Return {["ok" := VBool true]}, World [Sample.widget] [call_delete_one]).
Proof.
  apply (serialized_id_addresses Sample.store2 1 Sample.gadget);
    [reflexivity | reflexivity |].
  cbn. repeat constructor; [|apply not_elem_of_nil].
  by intros [=]%list_elem_of_singleton.
Defined.

(** ** What a request leaves alone *)

Lemma update_item_writes (item_id : string) (data : ItemUpdate.t) (w : world) :
  (∃ r, fst (update_item item_id data w) = Return r)
  ∨ item (snd (update_item item_id data w)) = item w.
Proof.
  rewrite update_item_run. unfold set_and_fetch.
  repeat case_match; cbn; eauto.
Qed.

Lemma adjust_stock_writes (item_id : string) (body : AdjustStock) (w : world) :
  (∃ r, fst (adjust_stock item_id body w) = Return r)
  ∨ item (snd (adjust_stock item_id body w)) = item w.
Proof. rewrite adjust_stock_cases. cbv zeta. repeat case_match; cbn; eauto. Qed.

Lemma delete_item_writes (item_id : string) (w : world) :
  (∃ r, fst (delete_item item_id w) = Return r)
  ∨ item (snd (delete_item item_id w)) = item w.
Proof. rewrite delete_item_cases. repeat case_match; cbn; eauto. Qed.

(** X2: an update, an adjustment or a delete that does not return a body
    leaves the collection as it was: a failed request writes nothing. *)
Theorem failed_request_writes_nothing (item_id : string) (data : ItemUpdate.t)
    (body : AdjustStock) (w : world) :
  ((∃ r, fst (update_item item_id data w) = Return r)
   ∨ item (snd (update_item item_id data w)) = item w)
  ∧ ((∃ r, fst (adjust_stock item_id body w) = Return r)
     ∨ item (snd (adjust_stock item_id body w)) = item w)
  ∧ ((∃ r, fst (delete_item item_id w) = Return r)
     ∨ item (snd (delete_item item_id w)) = item w).
Proof.
  split_and!;
    [apply update_item_writes | apply adjust_stock_writes | apply delete_item_writes].
Qed.

(** X3: listing and stats only read: whatever they answer, the collection
    is unchanged and exactly one [find] was sent to the store. *)
Theorem reads_do_not_write (q category : option string) (w : world) :
  snd (list_items q category w) = World (item w) (calls w ++ [call_find])
  ∧ snd (inventory_stats w) = World (item w) (calls w ++ [call_find]).
Proof.
  split.
  - unfold list_items, get_documents, find, bind, log, get_items, lift. cbn.
    by destruct (select _ (item w)).
  - unfold inventory_stats, bind. rewrite (find_run _ _ matches_all). unfold lift.
    destruct (py_sum (map units_of _)); [|done..].
    by destruct (py_sum (map low_of _)).
Qed.

Lemma insert_same_id (l : list document) (oid : ObjectId) (i : nat) (d : document)
    (flds : gmap string value) :
  list_find (has_id oid) l = Some (i, d) →
  _id <$> <[i := Doc oid flds]> l = _id <$> l.
Proof.
  intros (Hi & Hd & _)%list_find_Some.
  rewrite list_fmap_insert. cbn. apply list_insert_id.
  by rewrite list_lookup_fmap, Hi, <- Hd.
Qed.

(** X4: update and adjust-stock never add, remove, reorder or re-identify
    documents: the list of identifiers in the collection is the same after
    the request, whatever its outcome. *)
Theorem writes_keep_identifiers (item_id : string) (data : ItemUpdate.t)
    (body : AdjustStock) (w : world) :
  _id <$> item (snd (update_item item_id data w)) = _id <$> item w
  ∧ _id <$> item (snd (adjust_stock item_id body w)) = _id <$> item w.
Proof.
  split.
  - rewrite update_item_run. unfold set_and_fetch.
    repeat case_match; cbn; try done; simplify_eq; by eapply insert_same_id.
  - rewrite adjust_stock_cases. cbv zeta.
    repeat case_match; cbn; try done; simplify_eq; by eapply insert_same_id.
Qed.

(** ** Updates *)

Lemma update_item_success (item_id : string) (data : ItemUpdate.t)
    (w w1 : world) (body : gmap string value) :
  update_item item_id data w = (Return body, w1) →
  ∃ (oid : ObjectId) (i : nat) (d : document),
    ObjectId_of_str item_id = Return oid
    ∧ (size (ItemUpdate.model_dump_exclude_none data) =? 0)%nat = false
    ∧ bson_encodable (ItemUpdate.model_dump_exclude_none data) = true
    ∧ (∀ s, ItemUpdate.sku data = Some s →
            list_find (sku_of_other s oid) (item w) = None)
    ∧ list_find (has_id oid) (item w) = Some (i, d)
    ∧ item w1 = <[i := Doc oid (ItemUpdate.model_dump_exclude_none data ∪ fields d)]> (item w)
    ∧ body = serialize_doc (Doc oid (ItemUpdate.model_dump_exclude_none data ∪ fields d)).
Proof.
  intros Hrun. rewrite update_item_run in Hrun.
  destruct (ObjectId_of_str item_id) as [oid| |]; [|done..].
  cbn zeta in Hrun. destruct (size _ =? 0)%nat eqn:Hsize; [done|].
  assert (∃ w0, item w0 = item w
                ∧ (∀ s, ItemUpdate.sku data = Some s →
                        list_find (sku_of_other s oid) (item w) = None)
                ∧ set_and_fetch oid (ItemUpdate.model_dump_exclude_none data) w0 =
                  (Return body, w1)) as (w0 & Hitems & Hsku & Hset).
  { destruct (ItemUpdate.sku data) as [s|]; [|by exists w].
    destruct (list_find (sku_of_other s oid) (item w)) eqn:Hother; [done|].
    eexists (World _ _). split_and!; [done| |done]. by intros ? [= <-]. }
  unfold set_and_fetch in Hset. rewrite Hitems in Hset.
  destruct (bson_encodable _) eqn:Henc; [|done].
  destruct (list_find (has_id oid) (item w)) as [[i d]|] eqn:Hfind; [|done].
  injection Hset as <- <-. by exists oid, i, d.
Qed.

Lemma update_item_ok (item_id : string) (data : ItemUpdate.t) (w : world)
    (oid : ObjectId) (i : nat) (d : document) :
  ObjectId_of_str item_id = Return oid →
  (size (ItemUpdate.model_dump_exclude_none data) =? 0)%nat = false →
  bson_encodable (ItemUpdate.model_dump_exclude_none data) = true →
  (∀ s, ItemUpdate.sku data = Some s →
        list_find (sku_of_other s oid) (item w) = None) →
  list_find (has_id oid) (item w) = Some (i, d) →
  ∃ cs, update_item item_id data w =
        (Return (serialize_doc (Doc oid (ItemUpdate.model_dump_exclude_none data ∪ fields d))),
         World (<[i := Doc oid (ItemUpdate.model_dump_exclude_none data ∪ fields d)]> (item w)) cs).
Proof.
  intros Hoid Hsize Henc Hsku Hfind. rewrite update_item_run, Hoid. cbn zeta.
  rewrite Hsize. unfold set_and_fetch. rewrite Henc.
  destruct (ItemUpdate.sku data) as [s|].
  - rewrite (Hsku s eq_refl). cbn [item calls]. rewrite Hfind. by eexists.
  - rewrite Hfind. by eexists.
Qed.

(** X5: an update that succeeded can be sent again: it succeeds again with
    the same body and leaves the collection as the first one left it. *)
Theorem update_item_idempotent (item_id : string) (data : ItemUpdate.t)
    (w w1 : world) (body : gmap string value) :
  update_item item_id data w = (Return body, w1) →
  ∃ w2, update_item item_id data w1 = (Return body, w2) ∧ item w2 = item w1.
Proof.
  intros (oid & i & d & Hoid & Hsize & Henc & Hsku & Hfind & Hitems & ->)%update_item_success.
  set (payload := ItemUpdate.model_dump_exclude_none data) in *.
  set (d1 := Doc oid (payload ∪ fields d)) in *.
  destruct (update_item_ok item_id data w1 oid i d1) as [cs Hrun]; [done..| | |].
  - intros s Hs. rewrite Hitems. apply list_find_None, Forall_insert.
    + rewrite <- list_find_None. by apply Hsku.
    + by intros [_ []].
  - rewrite Hitems. by eapply list_find_id_insert.
  - fold payload in Hrun. rewrite Hitems, list_insert_insert_eq in Hrun.
    assert (Doc oid (payload ∪ fields d1) = d1) as Hsame.
    { unfold d1. cbn [fields]. by rewrite (assoc_L (∪)), (idemp_L (∪)). }
    rewrite Hsame in Hrun. by eexists.
Qed.

Lemma update_item_idempotent_witness :
  ∃ w2, update_item "65f0a1b2c3d4e5f601234567" Sample.restock
          (World [Sample.restocked] [call_update_one; call_find_one]) =
          (Return (serialize_doc Sample.restocked), w2)
        ∧ item w2 = [Sample.restocked].
Proof.
  exact (update_item_idempotent "65f0a1b2c3d4e5f601234567" Sample.restock Sample.store1
           (World [Sample.restocked] [call_update_one; call_find_one])
           (serialize_doc Sample.restocked) eq_refl).
Defined.

(** ** SKU uniqueness *)

Lemma count_sku_middle (t : string) (a b : list document) (x : document) :
  count_sku t (a ++ x :: b) =
  (count_sku t a + (if bool_decide (text_field "sku" t x) then 1 else 0) + count_sku t b)%nat.
Proof.
  unfold count_sku. rewrite filter_app, length_app, filter_cons.
  case_bool_decide; [rewrite decide_True by done | rewrite decide_False by done];
    cbn [length]; lia.
Qed.

Lemma count_sku_insert (t : string) (l : list document) (i : nat) (d d' : document) :
  l !! i = Some d →
  (count_sku t (<[i := d']> l) + (if bool_decide (text_field "sku" t d) then 1 else 0)
   = count_sku t l + (if bool_decide (text_field "sku" t d') then 1 else 0))%nat.
Proof.
  intros Hi. rewrite insert_take_drop by (by eapply lookup_lt_Some).
  rewrite <- (take_drop_middle l i d Hi) at 3.
  rewrite !count_sku_middle. lia.
Qed.

Lemma count_sku_delete (t : string) (l : list document) (i : nat) (d : document) :
  l !! i = Some d →
  (count_sku t (delete i l) + (if bool_decide (text_field "sku" t d) then 1 else 0)
   = count_sku t l)%nat.
Proof.
  intros Hi. rewrite delete_take_drop.
  rewrite <- (take_drop_middle l i d Hi) at 3.
  rewrite count_sku_middle. unfold count_sku.
  rewrite filter_app, length_app. lia.
Qed.

(** The SKU of an updated document: the supplied one, else the old one. *)
Lemma updated_sku (data : ItemUpdate.t) (d : document) :
  (ItemUpdate.model_dump_exclude_none data ∪ fields d) !! "sku" =
  match ItemUpdate.sku data with
  | Some s => Some (VStr s)
  | None => fields d !! "sku"
  end.
Proof.
  rewrite lookup_union, model_dump_lookup. unfold supplied. cbn.
  by destruct (ItemUpdate.sku data), (fields d !! "sku").
Qed.

(** What adjust-stock and delete do to the collection, whatever they
    answer. *)
Lemma adjust_stock_items (item_id : string) (body : AdjustStock) (w : world) :
  item (snd (adjust_stock item_id body w)) = item w
  ∨ ∃ (oid : ObjectId) (i : nat) (d : document) (z : Z),
      list_find (has_id oid) (item w) = Some (i, d)
      ∧ 0 ≤ z
      ∧ item (snd (adjust_stock item_id body w))
        = <[i := Doc oid (<["quantity" := VInt z]> (fields d))]> (item w).
Proof.
  rewrite adjust_stock_cases.
  destruct (ObjectId_of_str item_id) as [oid| |]; [|by left..].
  cbn zeta. destruct (list_find (has_id oid) (item w)) as [[i d]|] eqn:Hfind; [|by left].
  destruct (py_int _) as [q| |]; [|by left..].
  destruct (bson_value_ok _); [|by left].
  right. exists oid, i, d, (Z.max 0 (q + delta body)). split_and!; [done|lia|done].
Qed.

Lemma delete_item_items (item_id : string) (w : world) :
  item (snd (delete_item item_id w)) = item w
  ∨ ∃ (i : nat) (d : document),
      item w !! i = Some d ∧ item (snd (delete_item item_id w)) = delete i (item w).
Proof.
  rewrite delete_item_cases.
  destruct (ObjectId_of_str item_id) as [oid| |]; [|by left..].
  destruct (list_find (has_id oid) (item w)) as [[i d]|] eqn:Hfind; [|by left].
  right. exists i, d. by apply list_find_Some in Hfind as (? & _ & _).
Qed.

(** X6: the write handlers keep SKU uniqueness: if no SKU is on two items
    (and no identifier on two documents) before an update, an adjustment or a
    delete, none is afterwards, whatever the request and its outcome. *)
Theorem writes_keep_sku_unique (item_id : string) (data : ItemUpdate.t)
    (body : AdjustStock) (w : world) :
  NoDup (_id <$> item w) →
  sku_unique (item w) →
  sku_unique (item (snd (update_item item_id data w)))
  ∧ sku_unique (item (snd (adjust_stock item_id body w)))
  ∧ sku_unique (item (snd (delete_item item_id w))).
Proof.
  intros Hnodup Huniq. split_and!.
  - destruct (update_item_writes item_id data w) as [[r Hr] | ->]; [|done].
    destruct (update_item item_id data w) as [res w1] eqn:Hrun.
    cbn in Hr. subst res. cbn [snd].
    apply update_item_success in Hrun
      as (oid & i & d & _ & _ & _ & Hsku & Hfind & -> & _).
    pose proof Hfind as (Hi & Hd & _)%list_find_Some.
    intros t. specialize (Huniq t).
    pose proof (count_sku_insert t _ i d
                  (Doc oid (ItemUpdate.model_dump_exclude_none data ∪ fields d)) Hi) as Hcount.
    destruct (ItemUpdate.sku data) as [s|] eqn:Hs.
    + destruct (decide (t = s)) as [->|Hne].
      * destruct (bool_decide (text_field "sku" s d)) eqn:Hold.
        { repeat case_bool_decide; lia. }
        assert (count_sku s (item w) = 0%nat) as Hzero.
        { apply count_sku_none. intros e He Hes.
          specialize (Hsku s eq_refl). rewrite list_find_None, Forall_forall in Hsku.
          assert (has_id oid e) as Hide.
          { destruct (decide (has_id oid e)); [done|]. by destruct (Hsku e He). }
          apply list_elem_of_lookup in He as [j Hj].
          assert (j = i) as ->.
          { eapply (NoDup_lookup _ _ _ oid Hnodup);
              rewrite list_lookup_fmap; [rewrite Hj | rewrite Hi]; cbn; by f_equal. }
          assert (e = d) as -> by congruence.
          apply bool_decide_eq_false_1 in Hold. done. }
        repeat case_bool_decide; lia.
      * rewrite (bool_decide_eq_false_2 (text_field "sku" t (Doc oid _))) in Hcount.
        { repeat case_bool_decide; lia. }
        unfold text_field. cbn [fields]. rewrite updated_sku, Hs. congruence.
    + assert (text_field "sku" t (Doc oid (ItemUpdate.model_dump_exclude_none data ∪ fields d))
              ↔ text_field "sku" t d) as Hsame.
      { unfold text_field. cbn [fields]. by rewrite updated_sku, Hs. }
      rewrite (bool_decide_ext _ _ Hsame) in Hcount. lia.
  - destruct (adjust_stock_items item_id body w)
      as [-> | (oid & i & d & z & (Hi & _ & _)%list_find_Some & _ & ->)]; [done|].
    intros t. specialize (Huniq t).
    pose proof (count_sku_insert t _ i d
                  (Doc oid (<["quantity" := VInt z]> (fields d))) Hi) as Hcount.
    assert (text_field "sku" t (Doc oid (<["quantity" := VInt z]> (fields d)))
            ↔ text_field "sku" t d) as Hsame
      by (unfold text_field; cbn [fields]; by rewrite lookup_insert_ne).
    rewrite (bool_decide_ext _ _ Hsame) in Hcount. lia.
  - destruct (delete_item_items item_id w) as [-> | (i & d & Hi & ->)]; [done|].
    intros t. specialize (Huniq t).
    pose proof (count_sku_delete t _ i d Hi). lia.
Qed.

Lemma sample_sku_unique : sku_unique (item Sample.store2).
Proof.
  intros s. change (item Sample.store2) with (([] ++ [Sample.widget]) ++ [Sample.gadget])%list.
  rewrite !count_sku_snoc. unfold count_sku. cbn [filter list_filter length].
  repeat case_bool_decide; try lia.
  assert (s = "WID-1") by (by apply (model_dump_sku Sample.widget_item Sample.widget_id)).
  assert (s = "GAD-7") by (by apply (model_dump_sku Sample.gadget_item Sample.gadget_id)).
  congruence.
Qed.

Lemma sample_ids_NoDup : NoDup (_id <$> item Sample.store2).
Proof.
  cbn. repeat constructor; [|apply not_elem_of_nil].
  by intros [=]%list_elem_of_singleton.
Qed.

Lemma writes_keep_sku_unique_witness :
  sku_unique (item (snd (update_item "65f0a1b2c3d4e5f601234568" Sample.rename Sample.store2)))
  ∧ sku_unique (item (snd (adjust_stock "65f0a1b2c3d4e5f601234568" {| delta := -9 |} Sample.store2)))
  ∧ sku_unique (item (snd (delete_item "65f0a1b2c3d4e5f601234568" Sample.store2))).
Proof.
  exact (writes_keep_sku_unique "65f0a1b2c3d4e5f601234568" Sample.rename
           {| delta := -9 |} Sample.store2 sample_ids_NoDup sample_sku_unique).
Defined.

(** ** The stock invariant *)

Lemma update_item_items (item_id : string) (data : ItemUpdate.t) (w : world) :
  item (snd (update_item item_id data w)) = item w
  ∨ ∃ (oid : ObjectId) (i : nat) (d : document),
      list_find (has_id oid) (item w) = Some (i, d)
      ∧ item (snd (update_item item_id data w))
        = <[i := Doc oid (ItemUpdate.model_dump_exclude_none data ∪ fields d)]> (item w).
Proof.
  destruct (update_item_writes item_id data w) as [[r Hr] | ->]; [|by left].
  destruct (update_item item_id data w) as [res w1] eqn:Hrun.
  cbn in Hr. subst res. cbn [snd].
  apply update_item_success in Hrun as (oid & i & d & _ & _ & _ & _ & Hfind & -> & _).
  right. by exists oid, i, d.
Qed.

(** X7: stock never goes negative.  If every stored integer [quantity] and
    [min_stock] is at least 0, it still is after an update whose body passed
    validation ([ge=0]), after any adjustment and after any delete, whatever
    the outcome of the request. *)
Theorem stock_stays_nonneg (item_id : string) (data : ItemUpdate.t)
    (body : AdjustStock) (w : world) :
  ItemUpdate_valid data = true →
  Forall stock_nonneg (item w) →
  Forall stock_nonneg (item (snd (update_item item_id data w)))
  ∧ Forall stock_nonneg (item (snd (adjust_stock item_id body w)))
  ∧ Forall stock_nonneg (item (snd (delete_item item_id w))).
Proof.
  intros Hvalid Hall. split_and!.
  - destruct (update_item_items item_id data w)
      as [-> | (oid & i & d & (Hi & _ & _)%list_find_Some & ->)]; [done|].
    apply Forall_insert; [done|].
    pose proof (Forall_lookup_1 _ _ _ _ Hall Hi) as Hd.
    intros k z Hk Hz. unfold int_field in Hz. cbn [fields] in Hz.
    rewrite lookup_union, model_dump_lookup in Hz.
    unfold ItemUpdate_valid in Hvalid.
    apply andb_true_iff in Hvalid as [[[Hq Hm]%andb_true_iff _]%andb_true_iff _].
    destruct Hk as [-> | ->]; unfold supplied in Hz; cbn in Hz.
    + destruct (ItemUpdate.quantity data) as [q|]; cbn in Hz, Hq.
      * destruct (fields d !! "quantity"); injection Hz as <-; lia.
      * apply (Hd "quantity"); [by left|]. unfold int_field.
        by destruct (fields d !! "quantity").
    + destruct (ItemUpdate.min_stock data) as [m|]; cbn in Hz, Hm.
      * destruct (fields d !! "min_stock"); injection Hz as <-; lia.
      * apply (Hd "min_stock"); [by right|]. unfold int_field.
        by destruct (fields d !! "min_stock").
  - destruct (adjust_stock_items item_id body w)
      as [-> | (oid & i & d & q & (Hi & _ & _)%list_find_Some & Hq & ->)]; [done|].
    apply Forall_insert; [done|].
    pose proof (Forall_lookup_1 _ _ _ _ Hall Hi) as Hd.
    intros k z Hk Hz. unfold int_field in Hz. cbn [fields] in Hz.
    destruct Hk as [-> | ->].
    + rewrite lookup_insert_eq in Hz. injection Hz as <-. done.
    + rewrite lookup_insert_ne in Hz by done. by apply (Hd "min_stock"); [right|].
  - destruct (delete_item_items item_id w) as [-> | (i & d & _ & ->)]; [done|].
    by apply Forall_delete.
Qed.

Lemma sample_stock_nonneg : Forall stock_nonneg (item Sample.store2).
Proof.
  repeat constructor; intros k z [-> | ->] Hz; vm_compute in Hz;
    injection Hz as <-; done.
Qed.

Lemma stock_stays_nonneg_witness :
  Forall stock_nonneg (item (snd (update_item "65f0a1b2c3d4e5f601234567" Sample.restock Sample.store2)))
  ∧ Forall stock_nonneg (item (snd (adjust_stock "65f0a1b2c3d4e5f601234567" {| delta := -50 |} Sample.store2)))
  ∧ Forall stock_nonneg (item (snd (delete_item "65f0a1b2c3d4e5f601234567" Sample.store2))).
Proof.
  exact (stock_stays_nonneg "65f0a1b2c3d4e5f601234567" Sample.restock
           {| delta := -50 |} Sample.store2 eq_refl sample_stock_nonneg).
Defined.

(** ** Requests in sequence *)

Lemma adjust_stock_ok (item_id : string) (body : AdjustStock) (w : world)
    (oid : ObjectId) (i : nat) (d : document) (q : Z) :
  ObjectId_of_str item_id = Return oid →
  list_find (has_id oid) (item w) = Some (i, d) →
  int_field "quantity" q d →
  Z.max 0 (q + delta body) ≤ int64_max →
  adjust_stock item_id body w =
    (Return (serialize_doc (Doc oid (<["quantity" := VInt (Z.max 0 (q + delta body))]> (fields d)))),
     World (<[i := Doc oid (<["quantity" := VInt (Z.max 0 (q + delta body))]> (fields d))]> (item w))
           (calls w ++ [call_find_one; call_update_one; call_find_one])).
Proof.
  intros Hoid Hfind Hq Hfit. rewrite adjust_stock_cases, Hoid. cbn zeta. rewrite Hfind.
  unfold dict_get. rewrite Hq. cbn [py_int].
  by rewrite bson_value_ok_quantity by (done || lia).
Qed.

(** X8: two adjustments in a row, each to a quantity that fits in 8 bytes,
    leave the quantity [max(0, max(0, q + d1) + d2)]; when the first one does
    not hit the floor ([0 ≤ q + d1]) the collection is the same as after one
    adjustment by [d1 + d2]. *)
Theorem adjust_stock_twice (item_id : string) (w : world) (oid : ObjectId)
    (i : nat) (d : document) (q d1 d2 : Z) :
  ObjectId_of_str item_id = Return oid →
  list_find (has_id oid) (item w) = Some (i, d) →
  int_field "quantity" q d →
  Z.max 0 (q + d1) ≤ int64_max →
  Z.max 0 (Z.max 0 (q + d1) + d2) ≤ int64_max →
  let w1 := snd (adjust_stock item_id {| delta := d1 |} w) in
  let final :=
    Doc oid (<["quantity" := VInt (Z.max 0 (Z.max 0 (q + d1) + d2))]> (fields d)) in
  adjust_stock item_id {| delta := d2 |} w1 =
    (Return (serialize_doc final),
     World (<[i := final]> (item w))
           (calls w ++ [call_find_one; call_update_one; call_find_one;
                        call_find_one; call_update_one; call_find_one]))
  ∧ (0 ≤ q + d1 →
     item (snd (adjust_stock item_id {| delta := d2 |} w1))
     = item (snd (adjust_stock item_id {| delta := d1 + d2 |} w))).
Proof.
  intros Hoid Hfind Hq Hfit1 Hfit2 w1 final.
  assert (adjust_stock item_id {| delta := d2 |} w1 =
          (Return (serialize_doc final),
           World (<[i := final]> (item w))
                 (calls w ++ [call_find_one; call_update_one; call_find_one;
                              call_find_one; call_update_one; call_find_one]))) as Hrun.
  { subst w1. rewrite (adjust_stock_ok item_id {| delta := d1 |} w oid i d q) by done.
    cbn [snd delta].
    rewrite (adjust_stock_ok item_id {| delta := d2 |} _ oid i
               (Doc oid (<["quantity" := VInt (Z.max 0 (q + d1))]> (fields d)))
               (Z.max 0 (q + d1))); [|done| | |done].
    - cbn [item calls fields delta]. rewrite list_insert_insert_eq, insert_insert_eq.
      by rewrite <- !app_assoc.
    - cbn [item]. by eapply list_find_id_insert.
    - unfold int_field. cbn [fields]. apply lookup_insert_eq. }
  split; [done|]. intros Hfloor. rewrite Hrun.
  rewrite (adjust_stock_ok item_id {| delta := d1 + d2 |} w oid i d q)
    by (done || (cbn [delta]; lia)).
  cbn [snd item delta].
  subst final. do 4 f_equal. lia.
Qed.

Lemma adjust_stock_twice_witness :
  let w1 := snd (adjust_stock "65f0a1b2c3d4e5f601234567" {| delta := -4 |} Sample.store1) in
  let final := Doc Sample.widget_id (<["quantity" := VInt 12]> (fields Sample.widget)) in
  adjust_stock "65f0a1b2c3d4e5f601234567" {| delta := 6 |} w1 =
    (Return (serialize_doc final),
     World [final] [call_find_one; call_update_one; call_find_one;
                    call_find_one; call_update_one; call_find_one])
  ∧ (0 ≤ 10 + -4 →
     item (snd (adjust_stock "65f0a1b2c3d4e5f601234567" {| delta := 6 |} w1))
     = item (snd (adjust_stock "65f0a1b2c3d4e5f601234567" {| delta := -4 + 6 |}
                    Sample.store1))).
Proof.
  apply (adjust_stock_twice "65f0a1b2c3d4e5f601234567" Sample.store1 Sample.widget_id
           0 Sample.widget 10 (-4) 6 eq_refl eq_refl eq_refl);
    unfold int64_max; cbn; lia.
Defined.

(** X9: adding stock and taking the same amount away again restores the
    collection, for an item whose quantity is not negative and stays within
    8 bytes. *)
Theorem restock_round_trip (item_id : string) (w : world) (oid : ObjectId)
    (i : nat) (d : document) (q n : Z) :
  ObjectId_of_str item_id = Return oid →
  list_find (has_id oid) (item w) = Some (i, d) →
  int_field "quantity" q d →
  0 ≤ q → 0 ≤ n →
  q + n ≤ int64_max →
  item (snd (adjust_stock item_id {| delta := - n |}
               (snd (adjust_stock item_id {| delta := n |} w))))
  = item w.
Proof.
  intros Hoid Hfind Hq Hq0 Hn Hfit.
  pose proof Hfind as (Hi & Hd & _)%list_find_Some.
  rewrite (adjust_stock_ok item_id {| delta := n |} w oid i d q)
    by (done || (cbn [delta]; lia)).
  cbn [snd delta].
  rewrite (adjust_stock_ok item_id {| delta := - n |} _ oid i
             (Doc oid (<["quantity" := VInt (Z.max 0 (q + n))]> (fields d)))
             (Z.max 0 (q + n))); [|done| | |cbn [delta]; lia].
  - cbn [snd item fields delta]. rewrite list_insert_insert_eq, insert_insert_eq.
    replace (Z.max 0 (Z.max 0 (q + n) + - n)) with q by lia.
    apply list_insert_id. rewrite Hi. f_equal.
    destruct d as [o f]. cbn in *. unfold has_id in Hd. cbn in Hd. subst o.
    f_equal. symmetry. by apply insert_id.
  - cbn [item]. by eapply list_find_id_insert.
  - unfold int_field. cbn [fields]. apply lookup_insert_eq.
Qed.

Lemma restock_round_trip_witness :
  item (snd (adjust_stock "65f0a1b2c3d4e5f601234567" {| delta := - 25 |}
               (snd (adjust_stock "65f0a1b2c3d4e5f601234567" {| delta := 25 |}
                       Sample.store2))))
  = item Sample.store2.
Proof.
  apply (restock_round_trip "65f0a1b2c3d4e5f601234567" Sample.store2 Sample.widget_id
           0 Sample.widget 10 25); try reflexivity; unfold int64_max; lia.
Defined.

(** X10: a delete that succeeded cannot be repeated: where identifiers are
    not repeated, the same request again answers 404 "Item not found" and
    removes nothing more. *)
Theorem delete_item_twice (item_id : string) (w : world) (oid : ObjectId)
    (i : nat) (d : document) :
  ObjectId_of_str item_id = Return oid →
  list_find (has_id oid) (item w) = Some (i, d) →
  NoDup (_id <$> item w) →
  delete_item item_id (snd (delete_item item_id w)) =
    (Raise (HTTPException 404 "Item not found"),
     World (delete i (item w)) (calls w ++ [call_delete_one; call_delete_one])).
Proof.
  intros Hoid Hfind Hnodup.
  pose proof Hfind as (Hi & Hd & _)%list_find_Some.
  rewrite (delete_item_run _ w _ Hoid), Hfind. cbn [snd].
  rewrite (delete_item_run _ _ _ Hoid). cbn [item calls].
  rewrite (proj2 (list_find_None _ _)) by (by eapply delete_id_gone).
  by rewrite <- app_assoc.
Qed.

Lemma delete_item_twice_witness :
  delete_item "65f0a1b2c3d4e5f601234567"
    (snd (delete_item "65f0a1b2c3d4e5f601234567" Sample.store2)) =
    (Raise (HTTPException 404 "Item not found"),
     World [Sample.gadget] [call_delete_one; call_delete_one]).
Proof.
  exact (delete_item_twice "65f0a1b2c3d4e5f601234567" Sample.store2 Sample.widget_id
           0 Sample.widget eq_refl eq_refl sample_ids_NoDup).
Defined.

(** ** The answers of the routes *)







(** X12: with a well-formed id, an update fails with "No fields to update"
    exactly when the body supplies no field at all. *)
Theorem update_item_empty_iff (item_id : string) (data : ItemUpdate.t)
    (w : world) (oid : ObjectId) :
  ObjectId_of_str item_id = Return oid →
  fst (update_item item_id data w) = Raise (HTTPException 400 "No fields to update")
  ↔ ∀ k, supplied data k = None.
Proof.
  intros Hoid. rewrite update_item_run, Hoid. cbn zeta.
  destruct (size _ =? 0)%nat eqn:Hsize.
  - apply Nat.eqb_eq, map_size_empty_iff in Hsize. split; [|done].
    intros _ k. by rewrite <- model_dump_lookup, Hsize, lookup_empty.
  - split.
    + unfold set_and_fetch. repeat case_match; done.
    + intros Hnone. apply Nat.eqb_neq in Hsize. destruct Hsize.
      apply map_size_empty_iff, map_eq. intros k.
      by rewrite model_dump_lookup, Hnone, lookup_empty.
Qed.

Lemma update_item_empty_iff_witness :
  fst (update_item "65f0a1b2c3d4e5f601234567" Sample.restock Sample.store1)
    = Raise (HTTPException 400 "No fields to update")
  ↔ ∀ k, supplied Sample.restock k = None.
Proof.
  exact (update_item_empty_iff "65f0a1b2c3d4e5f601234567" Sample.restock
           Sample.store1 Sample.widget_id eq_refl).
Defined.

(** ** Absent and null stock fields *)

(** X13: adjusting a document that has no [quantity] field starts from 0:
    the field is created with [max(0, delta)], a number that fits in 8
    bytes, and nothing else in the document changes. *)
Theorem adjust_stock_creates_quantity (item_id : string) (body : AdjustStock)
    (w : world) (oid : ObjectId) (i : nat) (d : document) :
  ObjectId_of_str item_id = Return oid →
  list_find (has_id oid) (item w) = Some (i, d) →
  fields d !! "quantity" = None →
  Z.max 0 (delta body) ≤ int64_max →
  ∃ updated,
    adjust_stock item_id body w =
      (Return (serialize_doc updated),
       World (<[i := updated]> (item w))
             (calls w ++ [call_find_one; call_update_one; call_find_one]))
    ∧ _id updated = oid
    ∧ fields updated !! "quantity" = Some (VInt (Z.max 0 (delta body)))
    ∧ ∀ k, k ≠ "quantity" → fields updated !! k = fields d !! k.
Proof.
  intros Hoid Hfind Hq Hfit.
  exists (Doc oid (<["quantity" := VInt (Z.max 0 (delta body))]> (fields d))).
  split_and!; [by apply adjust_stock_absent_quantity|done|apply lookup_insert_eq|].
  intros k Hk. cbn [fields]. by rewrite lookup_insert_ne.
Qed.

Lemma adjust_stock_creates_quantity_witness :
  ∃ updated,
    adjust_stock "65f0a1b2c3d4e5f601234567" {| delta := 3 |}
      (World [Sample2.no_quantity] []) =
      (Return (serialize_doc updated),
       World [updated] [call_find_one; call_update_one; call_find_one])
    ∧ _id updated = Sample.widget_id
    ∧ fields updated !! "quantity" = Some (VInt 3)
    ∧ ∀ k, k ≠ "quantity" → fields updated !! k = fields Sample2.no_quantity !! k.
Proof.
  apply (adjust_stock_creates_quantity "65f0a1b2c3d4e5f601234567" {| delta := 3 |}
           (World [Sample2.no_quantity] []) Sample.widget_id 0 Sample2.no_quantity
           eq_refl eq_refl eq_refl).
  unfold int64_max. cbn. lia.
Defined.

Lemma total_quantity_nonneg (l : list document) :
  Forall stock_nonneg l → 0 ≤ total_quantity l.
Proof.
  unfold total_quantity. induction 1 as [|d l Hd _ IH]; [done|].
  cbn [foldr]. assert (0 ≤ quantity_of d); [|lia].
  unfold quantity_of, int_of_field.
  destruct (fields d !! "quantity") as [[| |z| |]|] eqn:Hz; try done.
  apply (Hd "quantity"); [by left | done].
Qed.

(** X14: stats over documents whose [quantity] may be absent and whose
    [min_stock] may be absent or null: an absent field counts as 0, the
    answer has [0 ≤ low_stock ≤ total_skus], and [total_units] is not
    negative when no stored stock is. *)
Theorem inventory_stats_bounds (w : world) :
  Forall (int_or_absent "quantity") (item w) →
  Forall (int_or_null "min_stock") (item w) →
  ∃ total_skus total_units low_stock,
    fst (inventory_stats w) = Return (stats_body total_skus total_units low_stock)
    ∧ total_skus = Z.of_nat (length (item w))
    ∧ total_units = total_quantity (item w)
    ∧ 0 ≤ low_stock ≤ total_skus
    ∧ (Forall stock_nonneg (item w) → 0 ≤ total_units).
Proof.
  intros Hqty Hmin.
  exists (Z.of_nat (length (item w))), (total_quantity (item w)), (low_stock_count (item w)).
  split_and!; try done.
  - by rewrite inventory_stats_run.
  - unfold low_stock_count. apply Nat2Z.is_nonneg.
  - unfold low_stock_count. apply inj_le, length_filter.
  - apply total_quantity_nonneg.
Qed.

Lemma inventory_stats_bounds_witness :
  ∃ total_skus total_units low_stock,
    fst (inventory_stats (World [Sample2.no_quantity; Sample.gadget] []))
      = Return (stats_body total_skus total_units low_stock)
    ∧ total_skus = Z.of_nat (length [Sample2.no_quantity; Sample.gadget])
    ∧ total_units = total_quantity [Sample2.no_quantity; Sample.gadget]
    ∧ 0 ≤ low_stock ≤ total_skus
    ∧ (Forall stock_nonneg [Sample2.no_quantity; Sample.gadget] → 0 ≤ total_units).
Proof.
  apply (inventory_stats_bounds (World [Sample2.no_quantity; Sample.gadget] [])).
  - apply Forall_cons_2; [by left|]. apply Forall_cons_2; [|apply Forall_nil_2].
    right. by eexists.
  - apply Forall_cons_2; [|apply Forall_cons_2; [|apply Forall_nil_2]];
      right; right; by eexists.
Defined.

(** X15: one stored null [quantity] is enough for stats to raise
    [TypeError], in [total_units], although [low_stock] alone reads a null as
    0; the collection is left as it was. *)
Theorem inventory_stats_fails_on_null (w : world) (d : document) :
  d ∈ item w →
  fields d !! "quantity" = Some VNone →
  Forall (int_or_null "quantity") (item w) →
  inventory_stats w = (Raise TypeError, World (item w) (calls w ++ [call_find]))
  ∧ (int_or_null "min_stock" d → ∃ z, low_of d = Return z).
Proof.
  intros Hd Hnull Hall.
  pose proof (inventory_stats_null_quantity w d Hd Hnull Hall) as Hfst.
  split.
  - destruct (inventory_stats w) as [r w1] eqn:Hrun. cbn in Hfst. subst r. f_equal.
    assert (snd (inventory_stats w) = World (item w) (calls w ++ [call_find])) as Hsnd.
    { unfold inventory_stats, bind. rewrite (find_run _ _ matches_all). unfold lift.
      destruct (py_sum (map units_of _)); [|done..].
      by destruct (py_sum (map low_of _)). }
    by rewrite Hrun in Hsnd.
  - intros Hmin. eexists. apply low_of_int; [done|]. right. by left.
Qed.

Lemma inventory_stats_fails_on_null_witness :
  inventory_stats (World [Sample.gadget; Sample.null_quantity] []) =
    (Raise TypeError, World [Sample.gadget; Sample.null_quantity] [call_find])
  ∧ (int_or_null "min_stock" Sample.null_quantity →
     ∃ z, low_of Sample.null_quantity = Return z).
Proof.
  apply (inventory_stats_fails_on_null
           (World [Sample.gadget; Sample.null_quantity] []) Sample.null_quantity).
  - right. left.
  - reflexivity.
  - apply Forall_cons_2; [|apply Forall_cons_2; [|apply Forall_nil_2]].
    + right. right. by eexists.
    + right. by left.
Defined.

(** ** The diagnostic route *)

Lemma test_database_cases (db : option Database) (getenv : string → option string)
    (r : Diagnostics.t) :
  test_database db getenv = Return r →
  Diagnostics.backend r = "✅ Running"
  ∧ Diagnostics.database_url r = Some (env_flag getenv "DATABASE_URL")
  ∧ Diagnostics.database_name r = Some (env_flag getenv "DATABASE_NAME")
  ∧ match db with
    | None =>
        Diagnostics.database r = "⚠️  Available but not initialized"
        ∧ Diagnostics.connection_status r = "Not Connected"
        ∧ Diagnostics.collections r = []
    | Some d =>
        Diagnostics.connection_status r = "Connected"
        ∧ match list_collection_names d with
          | inr names =>
              Diagnostics.database r = "✅ Connected & Working"
              ∧ Diagnostics.collections r = take 10 names
          | inl e =>
              Diagnostics.database r = "⚠️  Connected but Error: " ++ substring 0 50 e
              ∧ Diagnostics.collections r = []
          end
    end.
Proof.
  unfold test_database. destruct db as [d|]; cbn.
  - destruct (list_collection_names d) as [e|names]; cbn.
    + unfold first_50. destruct (forallb is_ascii (chars e)); cbn; [|done].
      by intros [= <-].
    + by intros [= <-].
  - by intros [= <-].
Qed.

(** X16: in the diagnostic answer [database_url] and [database_name] say
    only whether the environment variables [DATABASE_URL] and [DATABASE_NAME]
    are set to a non-empty value: what the handler wrote there from the
    connection ("✅ Configured", the database's name) is always overwritten,
    and a variable set to the empty string counts as not set. *)
Theorem test_database_env_fields (db : option Database)
    (getenv : string → option string) (r : Diagnostics.t) :
  test_database db getenv = Return r →
  (Diagnostics.database_url r = Some "✅ Set"
   ∨ Diagnostics.database_url r = Some "❌ Not Set")
  ∧ (Diagnostics.database_url r = Some "✅ Set"
     ↔ ∃ v, getenv "DATABASE_URL" = Some v ∧ v ≠ "")
  ∧ (Diagnostics.database_name r = Some "✅ Set"
     ∨ Diagnostics.database_name r = Some "❌ Not Set")
  ∧ (Diagnostics.database_name r = Some "✅ Set"
     ↔ ∃ v, getenv "DATABASE_NAME" = Some v ∧ v ≠ "").
Proof.
  intros (_ & -> & -> & _)%test_database_cases.
  assert (∀ k, (Some (env_flag getenv k) = Some "✅ Set"
                ∨ Some (env_flag getenv k) = Some "❌ Not Set")
               ∧ (Some (env_flag getenv k) = Some "✅ Set"
                  ↔ ∃ v, getenv k = Some v ∧ v ≠ "")) as Hflag.
  { intros k. unfold env_flag, given. destruct (getenv k) as [v|].
    - destruct (String.eqb_spec v "") as [->|Hne].
      + split; [by right|]. split; [done|]. by intros (v & [= <-] & ?).
      + split; [by left|]. split; [|done]. intros _. by exists v.
    - split; [by right|]. split; [done|]. by intros (v & [=] & _). }
  destruct (Hflag "DATABASE_URL"), (Hflag "DATABASE_NAME"). by split_and!.
Qed.

Lemma test_database_env_fields_witness :
  let r := Diagnostics.Build "✅ Running" "✅ Connected & Working"
             (Some "✅ Set") (Some "❌ Not Set") "Connected"
             ["c01"; "c02"; "c03"; "c04"; "c05"; "c06"; "c07"; "c08"; "c09"; "c10"] in
  (Diagnostics.database_url r = Some "✅ Set"
   ∨ Diagnostics.database_url r = Some "❌ Not Set")
  ∧ (Diagnostics.database_url r = Some "✅ Set"
     ↔ ∃ v, Sample2.env "DATABASE_URL" = Some v ∧ v ≠ "")
  ∧ (Diagnostics.database_name r = Some "✅ Set"
     ∨ Diagnostics.database_name r = Some "❌ Not Set")
  ∧ (Diagnostics.database_name r = Some "✅ Set"
     ↔ ∃ v, Sample2.env "DATABASE_NAME" = Some v ∧ v ≠ "").
Proof.
  exact (test_database_env_fields (Some Sample2.live) Sample2.env _ eq_refl).
Defined.

(** X17: the diagnostic answer says "Connected" exactly when there is a
    [db] handle and "✅ Connected & Working" exactly when listing the
    collections succeeded; it then carries the first ten collection names and
    never more; a failed listing is reported in [database] and is not an
    error of the route, which never leaves the initial "❌ Not Available". *)
Theorem test_database_connection (db : option Database)
    (getenv : string → option string) (r : Diagnostics.t) :
  test_database db getenv = Return r →
  (Diagnostics.connection_status r = "Connected" ↔ is_Some db)
  ∧ (Diagnostics.database r = "✅ Connected & Working"
     ↔ ∃ d names, db = Some d ∧ list_collection_names d = inr names)
  ∧ (∀ d names, db = Some d → list_collection_names d = inr names →
                Diagnostics.collections r = take 10 names)
  ∧ (length (Diagnostics.collections r) ≤ 10)%nat
  ∧ Diagnostics.database r ≠ "❌ Not Available".
Proof.
  intros (_ & _ & _ & Hdb)%test_database_cases.
  destruct db as [d|].
  - destruct Hdb as [-> Hlist].
    destruct (list_collection_names d) as [e|names] eqn:Hnames;
      destruct Hlist as [-> ->]; split_and!; try done.
    + split; [intros H; cbn in H; discriminate H|].
      intros (d' & names & [= <-] & ?). congruence.
    + intros d' names [= <-] ?. congruence.
    + cbn. lia.
    + split; [|done]. intros _. by exists d, names.
    + intros d' names' [= <-] ?. congruence.
    + rewrite length_take. lia.
  - destruct Hdb as (-> & -> & ->). split_and!; try done.
    + split; [done|]. by intros (d & names & [=] & _).
    + cbn. lia.
Qed.

Lemma test_database_connection_witness :
  let r := Diagnostics.Build "✅ Running" "✅ Connected & Working"
             (Some "✅ Set") (Some "❌ Not Set") "Connected"
             ["c01"; "c02"; "c03"; "c04"; "c05"; "c06"; "c07"; "c08"; "c09"; "c10"] in
  (Diagnostics.connection_status r = "Connected" ↔ is_Some (Some Sample2.live))
  ∧ (Diagnostics.database r = "✅ Connected & Working"
     ↔ ∃ d names, Some Sample2.live = Some d ∧ list_collection_names d = inr names)
  ∧ (∀ d names, Some Sample2.live = Some d → list_collection_names d = inr names →
                Diagnostics.collections r = take 10 names)
  ∧ (length (Diagnostics.collections r) ≤ 10)%nat
  ∧ Diagnostics.database r ≠ "❌ Not Available".
Proof.
  exact (test_database_connection (Some Sample2.live) Sample2.env _ eq_refl).
Defined.

(** A listing that fails, on the sample handle. *)
Example test_database_failing :
  test_database (Some Sample2.failing) Sample2.env =
    Return (Diagnostics.Build "✅ Running" "⚠️  Connected but Error: not authorized"
              (Some "✅ Set") (Some "❌ Not Set") "Connected" []).
Proof. reflexivity. Qed.

(** ** Stats after a write *)

Lemma total_quantity_app (a b : list document) :
  total_quantity (a ++ b) = total_quantity a + total_quantity b.
Proof.
  unfold total_quantity. induction a as [|x a IH]; [done|].
  cbn [app foldr]. rewrite IH. lia.
Qed.

Lemma total_quantity_insert (l : list document) (i : nat) (d d' : document) :
  l !! i = Some d →
  total_quantity (<[i := d']> l) = total_quantity l - quantity_of d + quantity_of d'.
Proof.
  intros Hi. rewrite insert_take_drop by (by eapply lookup_lt_Some).
  rewrite <- (take_drop_middle l i d Hi) at 3.
  rewrite !total_quantity_app. unfold total_quantity. cbn [foldr]. lia.
Qed.

Lemma total_quantity_delete (l : list document) (i : nat) (d : document) :
  l !! i = Some d →
  total_quantity (delete i l) = total_quantity l - quantity_of d.
Proof.
  intros Hi. rewrite delete_take_drop.
  rewrite <- (take_drop_middle l i d Hi) at 3.
  rewrite !total_quantity_app. unfold total_quantity. cbn [foldr]. lia.
Qed.

(** X18: stats follow the writes.  After an adjustment of an item with
    quantity [q] to a quantity that fits in 8 bytes the number of items is
    the same and [total_units] has moved by [max(0, q + delta) - q]; after a
    delete there is one item less and [total_units] has dropped by the
    deleted item's quantity. *)
Theorem stats_track_writes (item_id : string) (body : AdjustStock) (w : world)
    (oid : ObjectId) (i : nat) (d : document) (q : Z) :
  ObjectId_of_str item_id = Return oid →
  list_find (has_id oid) (item w) = Some (i, d) →
  int_field "quantity" q d →
  Z.max 0 (q + delta body) ≤ int64_max →
  Forall (int_or_absent "quantity") (item w) →
  Forall (int_or_null "min_stock") (item w) →
  ∃ skus units low,
    fst (inventory_stats w) = Return (stats_body skus units low)
    ∧ (∃ low', fst (inventory_stats (snd (adjust_stock item_id body w)))
               = Return (stats_body skus (units - q + Z.max 0 (q + delta body)) low'))
    ∧ (∃ low', fst (inventory_stats (snd (delete_item item_id w)))
               = Return (stats_body (skus - 1) (units - q) low')).
Proof.
  intros Hoid Hfind Hq Hfit Hqty Hmin.
  pose proof Hfind as (Hi & Hd & _)%list_find_Some.
  assert (quantity_of d = q) as Hqd
    by (unfold quantity_of, int_of_field; unfold int_field in Hq; by rewrite Hq).
  exists (Z.of_nat (length (item w))), (total_quantity (item w)), (low_stock_count (item w)).
  split_and!.
  - by rewrite inventory_stats_run.
  - eexists. rewrite (adjust_stock_ok item_id body w oid i d q) by done. cbn [snd].
    rewrite inventory_stats_run; cbn [item].
    + cbn [fst]. rewrite length_insert, (total_quantity_insert _ _ d) by done.
      rewrite Hqd. unfold quantity_of at 1, int_of_field at 1. cbn [fields].
      rewrite lookup_insert_eq. reflexivity.
    + apply Forall_insert; [done|]. right. eexists. apply lookup_insert_eq.
    + apply Forall_insert; [done|].
      pose proof (Forall_lookup_1 _ _ _ _ Hmin Hi) as Hdm.
      unfold int_or_null, int_field in *. cbn [fields].
      by rewrite lookup_insert_ne.
  - eexists. rewrite (delete_item_run _ w _ Hoid), Hfind. cbn [snd].
    rewrite inventory_stats_run; cbn [item]; [|by apply Forall_delete..].
    cbn [fst]. rewrite (total_quantity_delete _ _ d), Hqd by done.
    rewrite length_delete by eauto.
    apply lookup_lt_Some in Hi.
    replace (Z.of_nat (length (item w) - 1)) with (Z.of_nat (length (item w)) - 1) by lia.
    done.
Qed.

Lemma stats_track_writes_witness :
  ∃ skus units low,
    fst (inventory_stats Sample.store2) = Return (stats_body skus units low)
    ∧ (∃ low', fst (inventory_stats
                      (snd (adjust_stock "65f0a1b2c3d4e5f601234567" {| delta := -4 |}
                              Sample.store2)))
               = Return (stats_body skus (units - 10 + Z.max 0 (10 + -4)) low'))
    ∧ (∃ low', fst (inventory_stats
                      (snd (delete_item "65f0a1b2c3d4e5f601234567" Sample.store2)))
               = Return (stats_body (skus - 1) (units - 10) low')).
Proof.
  apply (stats_track_writes "65f0a1b2c3d4e5f601234567" {| delta := -4 |} Sample.store2
           Sample.widget_id 0 Sample.widget 10); try reflexivity.
  - unfold int64_max. cbn. lia.
  - apply Forall_cons_2; [|apply Forall_cons_2; [|apply Forall_nil_2]];
      right; by eexists.
  - apply Forall_cons_2; [|apply Forall_cons_2; [|apply Forall_nil_2]];
      right; right; by eexists.
Defined.
